(** * pw_stream_uart_mcuxpresso: the DMA-backed UART stream

    A shallow embedding of [pw_stream_uart_mcuxpresso/dma_stream.cc]
    (class [pw::stream::UartDmaStreamMcuxpresso]) and the properties of its
    lifecycle (Init / Deinit / destructor), of the chunked write path
    (DoWrite / TriggerWriteDma / TxRxCompletionCallback) and of the read stub
    (DoRead).

    The driver runs against the NXP SDK.  Every SDK routine the driver calls is
    recorded, in call order, in a log carried by the [World]; the two routines
    whose return value the driver inspects take their answer from a [Vendor]
    record, so the theorems hold for every behaviour of the SDK. *)

From Stdlib Require Import ZArith List Bool Lia.
Import ListNotations.
Open Scope Z_scope.

(* ------------------------------------------------------------------ *)
(** ** Machine integers *)

(** [size_t] on the target (Cortex-M33, ILP32) is a 32-bit unsigned integer.
    Values are kept as [Z]; every arithmetic result is reduced by
    [size_t_of]. *)
Definition size_t_bits : Z := 32.
Definition size_t_modulus : Z := 2 ^ size_t_bits.
Definition size_t_of (z : Z) : Z := z mod size_t_modulus.

Definition size_t_add (a b : Z) : Z := size_t_of (a + b).
Definition size_t_sub (a b : Z) : Z := size_t_of (a - b).

(* ------------------------------------------------------------------ *)
(** ** Status codes *)

(** [pw::Status] codes produced by this file. *)
Inductive Status : Type :=
| OkStatus
| InvalidArgument
| FailedPrecondition
| Internal.

(** [status_t] of the SDK: the codes the driver compares against, and the
    other codes the USART routines can report. *)
Inductive status_t : Type :=
| kStatus_Success
| kStatus_Fail
| kStatus_InvalidArgument
| kStatus_USART_TxBusy
| kStatus_USART_RxBusy
| kStatus_USART_TxIdle
| kStatus_USART_RxIdle
| kStatus_USART_BaudrateNotSupport.

Definition status_t_eqb (a b : status_t) : bool :=
  match a, b with
  | kStatus_Success, kStatus_Success
  | kStatus_Fail, kStatus_Fail
  | kStatus_InvalidArgument, kStatus_InvalidArgument
  | kStatus_USART_TxBusy, kStatus_USART_TxBusy
  | kStatus_USART_RxBusy, kStatus_USART_RxBusy
  | kStatus_USART_TxIdle, kStatus_USART_TxIdle
  | kStatus_USART_RxIdle, kStatus_USART_RxIdle
  | kStatus_USART_BaudrateNotSupport, kStatus_USART_BaudrateNotSupport => true
  | _, _ => false
  end.

(** Modelled from the spec: [pw::StatusWithSize] (pw_status; its header is not among the embedded sources).
    The constructor taking a size builds an OK status that reports that
    size (section 4.4: "returns success with a reported length of N"). *)
Record StatusWithSize : Type := mkStatusWithSize {
  sws_status : Status;
  sws_size : Z
}.

Definition StatusWithSize_of_size (length : Z) : StatusWithSize :=
  {| sws_status := OkStatus; sws_size := length |}.

(* ------------------------------------------------------------------ *)
(** ** Data model *)

(** Pointers are addresses; [nullptr] is address 0. *)
Definition nullptr : Z := 0.

Inductive usart_parity_mode_t : Type :=
| kUSART_ParityDisabled
| kUSART_ParityEven
| kUSART_ParityOdd.

(** [UartDmaStreamMcuxpresso::Config], the fields [dma_stream.cc] reads. *)
Record Config : Type := mkConfig {
  usart_base : Z;
  baud_rate : Z;
  parity : usart_parity_mode_t;
  dma_base : Z;
  rx_dma_ch : Z;
  tx_dma_ch : Z;
  rx_input_mux_dmac_ch_request_en : Z;
  tx_input_mux_dmac_ch_request_en : Z
}.

(** [usart_config_t]: the four fields [Init] overrides; [usart_other] stands
    for the remaining fields, which keep what USART_GetDefaultConfig wrote. *)
Record usart_config_t : Type := mk_usart_config {
  baudRate_Bps : Z;
  parityMode : usart_parity_mode_t;
  enableTx : bool;
  enableRx : bool;
  usart_other : Z
}.

(** [usart_transfer_t]: the per-chunk descriptor. *)
Record usart_transfer_t : Type := mk_transfer {
  txData : Z;
  dataSize : Z
}.

(** A byte span: start address and length in bytes. *)
Record ByteSpan : Type := mkSpan {
  span_data : Z;
  size_bytes : Z
}.
Definition ConstByteSpan : Type := ByteSpan.

(** [UsartDmaTxData]: the transmit transfer record.  [notification] is the
    latch of the single-slot thread notification. *)
Record UsartDmaTxData : Type := mkTxData {
  buffer : ConstByteSpan;
  tx_idx : Z;
  transfer : usart_transfer_t;
  busy : bool;
  notification : bool
}.

(** The driver instance.  The DMA handles and [uart_dma_handle_] are opaque
    SDK objects: their creation is visible in the call log. *)
Record UartDmaStreamMcuxpresso : Type := mkStream {
  config_ : Config;
  initialized_ : bool;
  tx_data_ : UsartDmaTxData
}.

Inductive dma_handle_id : Type := tx_dma_handle | rx_dma_handle.

(** Calls into the SDK and the interrupt lock, with their arguments.
    [USART_Init] and [USART_TransferCreateHandleDMA] also carry the status
    they returned. *)
Inductive hw_call : Type :=
| interrupt_lock_lock
| interrupt_lock_unlock
| DMA_DisableChannel (base ch : Z)
| DMA_EnableChannel (base ch : Z)
| DMA_CreateHandle (h : dma_handle_id) (base ch : Z)
| USART_Deinit (base : Z)
| USART_GetDefaultConfig
| USART_Init (base : Z) (cfg : usart_config_t) (srcclk : Z) (ret : status_t)
| INPUTMUX_Init
| INPUTMUX_EnableSignal (signal : Z) (enable : bool)
| INPUTMUX_Deinit
| USART_TransferCreateHandleDMA (base : Z) (ret : status_t)
| USART_TransferSendDMA (base : Z) (xfer : usart_transfer_t).

(** The driver together with what surrounds it: the SDK call log (oldest call
    first), the transmit transfer the USART DMA engine is working on, and
    memory (one byte per address). *)
Record World : Type := mkWorld {
  self : UartDmaStreamMcuxpresso;
  calls : list hw_call;
  tx_in_flight : option usart_transfer_t;
  memory : Z -> Z
}.

(** Answers of the SDK that the driver inspects or copies.  Each may depend on
    everything that happened before (the call log). *)
Record Vendor : Type := mkVendor {
  default_config : usart_config_t;
  USART_Init_ret : list hw_call -> Z -> usart_config_t -> Z -> status_t;
  USART_TransferCreateHandleDMA_ret : list hw_call -> Z -> status_t
}.

(* ------------------------------------------------------------------ *)
(** ** Field updates *)

Definition with_self (f : UartDmaStreamMcuxpresso -> UartDmaStreamMcuxpresso)
    (w : World) : World :=
  {| self := f (self w); calls := calls w;
     tx_in_flight := tx_in_flight w; memory := memory w |}.

Definition with_tx_data (f : UsartDmaTxData -> UsartDmaTxData)
    (s : UartDmaStreamMcuxpresso) : UartDmaStreamMcuxpresso :=
  {| config_ := config_ s; initialized_ := initialized_ s;
     tx_data_ := f (tx_data_ s) |}.

Definition set_initialized (b : bool) (s : UartDmaStreamMcuxpresso)
    : UartDmaStreamMcuxpresso :=
  {| config_ := config_ s; initialized_ := b; tx_data_ := tx_data_ s |}.

Definition set_buffer (b : ConstByteSpan) (t : UsartDmaTxData) : UsartDmaTxData :=
  {| buffer := b; tx_idx := tx_idx t; transfer := transfer t;
     busy := busy t; notification := notification t |}.

Definition set_tx_idx (i : Z) (t : UsartDmaTxData) : UsartDmaTxData :=
  {| buffer := buffer t; tx_idx := i; transfer := transfer t;
     busy := busy t; notification := notification t |}.

Definition set_transfer (x : usart_transfer_t) (t : UsartDmaTxData) : UsartDmaTxData :=
  {| buffer := buffer t; tx_idx := tx_idx t; transfer := x;
     busy := busy t; notification := notification t |}.

Definition set_busy (b : bool) (t : UsartDmaTxData) : UsartDmaTxData :=
  {| buffer := buffer t; tx_idx := tx_idx t; transfer := transfer t;
     busy := b; notification := notification t |}.

Definition set_notification (b : bool) (t : UsartDmaTxData) : UsartDmaTxData :=
  {| buffer := buffer t; tx_idx := tx_idx t; transfer := transfer t;
     busy := busy t; notification := b |}.

Definition set_txData (p : Z) (x : usart_transfer_t) : usart_transfer_t :=
  {| txData := p; dataSize := dataSize x |}.

Definition set_dataSize (n : Z) (x : usart_transfer_t) : usart_transfer_t :=
  {| txData := txData x; dataSize := n |}.

(* ------------------------------------------------------------------ *)
(** ** Execution monad *)

(** A driver routine either returns, dies on a failed PW_CHECK, or is still
    blocked on the notification when its fuel is spent (or when no transfer is
    left that could signal it). *)
Inductive Outcome (A : Type) : Type :=
| Returned (a : A) (w : World)
| Aborted (w : World)
| Blocked (w : World).
Arguments Returned {A} a w.
Arguments Aborted {A} w.
Arguments Blocked {A} w.

Definition M (A : Type) : Type := World -> Outcome A.

Definition ret {A : Type} (a : A) : M A := fun w => Returned a w.

Definition bind {A B : Type} (m : M A) (k : A -> M B) : M B :=
  fun w =>
    match m w with
    | Returned a w' => k a w'
    | Aborted w' => Aborted w'
    | Blocked w' => Blocked w'
    end.

Declare Scope drv_scope.
Delimit Scope drv_scope with drv.
Notation "x <- m ;; k" := (bind m (fun x => k))
  (at level 61, m at next level, right associativity) : drv_scope.
Notation "m ;; k" := (bind m (fun _ => k))
  (at level 61, right associativity) : drv_scope.
Open Scope drv_scope.

Definition get_config : M Config := fun w => Returned (config_ (self w)) w.
Definition get_tx_data : M UsartDmaTxData := fun w => Returned (tx_data_ (self w)) w.
Definition get_initialized : M bool := fun w => Returned (initialized_ (self w)) w.

Definition modify_tx_data (f : UsartDmaTxData -> UsartDmaTxData) : M unit :=
  fun w => Returned tt (with_self (with_tx_data f) w).

Definition modify_transfer (f : usart_transfer_t -> usart_transfer_t) : M unit :=
  modify_tx_data (fun t => set_transfer (f (transfer t)) t).

Definition store_initialized (b : bool) : M unit :=
  fun w => Returned tt (with_self (set_initialized b) w).

(** Append one SDK call to the log. *)
Definition log_call (c : hw_call) (w : World) : World :=
  {| self := self w; calls := calls w ++ [c];
     tx_in_flight := tx_in_flight w; memory := memory w |}.

Definition sdk (c : hw_call) : M unit := fun w => Returned tt (log_call c w).

(* ------------------------------------------------------------------ *)
(** ** Collaborators of the driver *)

(** Modelled from the spec: PW_CHECK_INT_LT (pw_assert; the macro is not
    among the embedded sources), "a fatal consistency check": the routine dies
    unless [a < b]. *)
Definition PW_CHECK_INT_LT (a b : Z) : M unit :=
  fun w => if a <? b then Returned tt w else Aborted w.

(** Modelled from the spec: the notification (pw_sync; its header is not
    among the embedded sources), "a single-slot wait/signal notification": [release] sets the latch, and a
    second signal before the latch is consumed does not queue. *)
Definition notification_release : M unit :=
  modify_tx_data (set_notification true).

(** [tx_data_.busy.exchange(v)]: store [v], return the previous value. *)
Definition busy_exchange (v : bool) : M bool :=
  fun w => Returned (busy (tx_data_ (self w)))
                    (with_self (with_tx_data (set_busy v)) w).

Definition busy_store (v : bool) : M unit := modify_tx_data (set_busy v).

(** The SDK's USART_TransferSendDMA as the driver sees it: the call is logged;
    when the transmitter is idle the transfer is started (fire-and-forget),
    and while another transfer is in flight the request is turned down.  The
    driver ignores the returned status. *)
Definition USART_TransferSendDMA_call (base : Z) (xfer : usart_transfer_t) : M unit :=
  fun w =>
    Returned tt
      {| self := self w;
         calls := calls w ++ [USART_TransferSendDMA base xfer];
         tx_in_flight := match tx_in_flight w with
                         | Some t => Some t
                         | None => Some xfer
                         end;
         memory := memory w |}.

Section Driver.

(** The hardware constant declared in dma_stream.h: the largest number of
    bytes one DMA transfer moves.  Its value is left open. *)
Variable kUsartDmaMaxTransferCount : Z.

(** The SDK's answers. *)
Variable sdk_ret : Vendor.

Definition USART_GetDefaultConfig_call : M usart_config_t :=
  fun w => Returned (default_config sdk_ret) (log_call USART_GetDefaultConfig w).

Definition USART_Init_call (base : Z) (cfg : usart_config_t) (srcclk : Z)
    : M status_t :=
  fun w =>
    let r := USART_Init_ret sdk_ret (calls w) base cfg srcclk in
    Returned r (log_call (USART_Init base cfg srcclk r) w).

Definition USART_TransferCreateHandleDMA_call (base : Z) : M status_t :=
  fun w =>
    let r := USART_TransferCreateHandleDMA_ret sdk_ret (calls w) base in
    Returned r (log_call (USART_TransferCreateHandleDMA base r) w).

(* ---------------------------------------------------------------- *)
(** ** The driver *)

(** [UartDmaStreamMcuxpresso::Deinit] *)
Definition Deinit : M unit :=
  cfg <- get_config ;;
  sdk interrupt_lock_lock ;;
  sdk (DMA_DisableChannel (dma_base cfg) (tx_dma_ch cfg)) ;;
  sdk (DMA_DisableChannel (dma_base cfg) (rx_dma_ch cfg)) ;;
  sdk interrupt_lock_unlock ;;
  sdk (USART_Deinit (usart_base cfg)).

(** [UartDmaStreamMcuxpresso::~UartDmaStreamMcuxpresso] *)
Definition UartDmaStreamMcuxpresso_dtor : M unit :=
  initialized <- get_initialized ;;
  if negb initialized then ret tt
  else Deinit.

(** [UartDmaStreamMcuxpresso::Init] *)
Definition Init (srcclk : Z) : M Status :=
  cfg <- get_config ;;
  if srcclk =? 0 then ret InvalidArgument else
  if usart_base cfg =? nullptr then ret InvalidArgument else
  if baud_rate cfg =? 0 then ret InvalidArgument else
  if dma_base cfg =? nullptr then ret InvalidArgument else
  defaults <- USART_GetDefaultConfig_call ;;
  let defconfig_ :=
    {| baudRate_Bps := baud_rate cfg;
       parityMode := parity cfg;
       enableTx := true;
       enableRx := true;
       usart_other := usart_other defaults |} in
  status <- USART_Init_call (usart_base cfg) defconfig_ srcclk ;;
  if negb (status_t_eqb status kStatus_Success) then ret Internal else
  sdk interrupt_lock_lock ;;
  sdk INPUTMUX_Init ;;
  sdk (INPUTMUX_EnableSignal (rx_input_mux_dmac_ch_request_en cfg) true) ;;
  sdk (INPUTMUX_EnableSignal (tx_input_mux_dmac_ch_request_en cfg) true) ;;
  sdk INPUTMUX_Deinit ;;
  sdk (DMA_EnableChannel (dma_base cfg) (tx_dma_ch cfg)) ;;
  sdk (DMA_EnableChannel (dma_base cfg) (rx_dma_ch cfg)) ;;
  sdk (DMA_CreateHandle tx_dma_handle (dma_base cfg) (tx_dma_ch cfg)) ;;
  sdk (DMA_CreateHandle rx_dma_handle (dma_base cfg) (rx_dma_ch cfg)) ;;
  sdk interrupt_lock_unlock ;;
  status <- USART_TransferCreateHandleDMA_call (usart_base cfg) ;;
  if negb (status_t_eqb status kStatus_Success) then
    Deinit ;;
    ret Internal
  else
    store_initialized true ;;
    ret OkStatus.

(** [UartDmaStreamMcuxpresso::TriggerWriteDma] *)
Definition TriggerWriteDma : M unit :=
  tx <- get_tx_data ;;
  let tx_buffer := span_data (buffer tx) in
  modify_transfer (set_txData (tx_buffer + tx_idx tx)) ;;
  (if size_t_add (tx_idx tx) kUsartDmaMaxTransferCount >? size_bytes (buffer tx)
   then modify_transfer
          (set_dataSize (size_t_sub (size_bytes (buffer tx)) (tx_idx tx)))
   else modify_transfer (set_dataSize kUsartDmaMaxTransferCount)) ;;
  cfg <- get_config ;;
  tx <- get_tx_data ;;
  USART_TransferSendDMA_call (usart_base cfg) (transfer tx).

(** [UartDmaStreamMcuxpresso::TxRxCompletionCallback].  [param] is the
    stream of the world; [base] and [state] are not used by the body. *)
Definition TxRxCompletionCallback (status : status_t) : M unit :=
  if status_t_eqb status kStatus_USART_TxIdle then
    modify_tx_data
      (fun t => set_tx_idx (size_t_add (tx_idx t) (dataSize (transfer t))) t) ;;
    tx <- get_tx_data ;;
    if tx_idx tx =? size_bytes (buffer tx) then
      notification_release
    else
      PW_CHECK_INT_LT (tx_idx tx) (size_bytes (buffer tx)) ;;
      TriggerWriteDma
  else ret tt.

(** [UartDmaStreamMcuxpresso::DoRead] *)
Definition DoRead (data : ByteSpan) : M StatusWithSize :=
  let length := size_bytes data in
  ret (StatusWithSize_of_size length).

(** The USART DMA engine finishes the transfer in flight: the transmitter
    becomes idle again and the SDK invokes the registered completion
    callback with [kStatus_USART_TxIdle]. *)
Definition usart_tx_dma_complete : M unit :=
  fun w =>
    match tx_in_flight w with
    | None => Returned tt w
    | Some _ =>
        TxRxCompletionCallback kStatus_USART_TxIdle
          {| self := self w; calls := calls w;
             tx_in_flight := None; memory := memory w |}
    end.

(** [tx_data_.notification.acquire()]: the caller sleeps until the latch is
    set, then clears it.  While it sleeps the only thing that runs is the
    DMA engine, one completed transfer per unit of [fuel]. *)
Fixpoint notification_acquire (fuel : nat) : M unit :=
  fun w =>
    if notification (tx_data_ (self w)) then
      modify_tx_data (set_notification false) w
    else
      match fuel with
      | O => Blocked w
      | S fuel' =>
          match tx_in_flight w with
          | None => Blocked w
          | Some _ => (usart_tx_dma_complete ;; notification_acquire fuel') w
          end
      end.

(** [UartDmaStreamMcuxpresso::DoWrite] *)
Definition DoWrite (fuel : nat) (data : ConstByteSpan) : M Status :=
  if size_bytes data =? 0 then ret InvalidArgument else
  was_busy <- busy_exchange true ;;
  if was_busy then ret FailedPrecondition else
  modify_tx_data (set_buffer data) ;;
  modify_tx_data (set_tx_idx 0) ;;
  TriggerWriteDma ;;
  notification_acquire fuel ;;
  busy_store false ;;
  ret OkStatus.

(* ---------------------------------------------------------------- *)
(** ** The chunking the specification asks for *)

(** ceil(len / max-chunk), the number of hardware transfers of one write. *)
Definition chunk_count (len : Z) : nat :=
  Z.to_nat ((len + kUsartDmaMaxTransferCount - 1) / kUsartDmaMaxTransferCount).

(** The [i]-th chunk of [b]: it starts [i] * max-chunk bytes into the buffer
    and is min(max-chunk, remaining) bytes long. *)
Definition chunk_at (b : ConstByteSpan) (i : nat) : usart_transfer_t :=
  let off := Z.of_nat i * kUsartDmaMaxTransferCount in
  {| txData := span_data b + off;
     dataSize := Z.min kUsartDmaMaxTransferCount (size_bytes b - off) |}.

(** The transfers section 8 expects of Write(b), in order. *)
Definition spec_transfers (b : ConstByteSpan) : list usart_transfer_t :=
  map (chunk_at b) (seq 0 (chunk_count (size_bytes b))).

(* ---------------------------------------------------------------- *)
(** ** Worlds met during one write *)

(** The world while chunk [i] of [b] is in flight, for a write that started
    in [w0] and has issued the transfers [sent] so far. *)
Definition writing (w0 : World) (b : ConstByteSpan) (i : nat)
    (sent : list usart_transfer_t) : World :=
  {| self :=
       {| config_ := config_ (self w0);
          initialized_ := initialized_ (self w0);
          tx_data_ :=
            {| buffer := b;
               tx_idx := Z.of_nat i * kUsartDmaMaxTransferCount;
               transfer := chunk_at b i;
               busy := true;
               notification := false |} |};
     calls := calls w0 ++
              map (USART_TransferSendDMA (usart_base (config_ (self w0)))) sent;
     tx_in_flight := Some (chunk_at b i);
     memory := memory w0 |}.

(** The world once the last chunk, chunk [i], has completed; [latch] is the
    notification latch and [bsy] the busy flag. *)
Definition written (w0 : World) (b : ConstByteSpan) (i : nat)
    (sent : list usart_transfer_t) (latch bsy : bool) : World :=
  {| self :=
       {| config_ := config_ (self w0);
          initialized_ := initialized_ (self w0);
          tx_data_ :=
            {| buffer := b;
               tx_idx := size_bytes b;
               transfer := chunk_at b i;
               busy := bsy;
               notification := latch |} |};
     calls := calls w0 ++
              map (USART_TransferSendDMA (usart_base (config_ (self w0)))) sent;
     tx_in_flight := None;
     memory := memory w0 |}.

(** The world in which [TriggerWriteDma] is entered for chunk [i] of that
    write: the cursor is at the chunk's start, the transmitter is idle and
    the descriptor still holds [x]. *)
Definition armed (w0 : World) (b : ConstByteSpan) (i : nat)
    (x : usart_transfer_t) (sent : list usart_transfer_t) : World :=
  {| self :=
       {| config_ := config_ (self w0);
          initialized_ := initialized_ (self w0);
          tx_data_ :=
            {| buffer := b;
               tx_idx := Z.of_nat i * kUsartDmaMaxTransferCount;
               transfer := x;
               busy := true;
               notification := false |} |};
     calls := calls w0 ++
              map (USART_TransferSendDMA (usart_base (config_ (self w0)))) sent;
     tx_in_flight := None;
     memory := memory w0 |}.

End Driver.

(* ------------------------------------------------------------------ *)
(** ** Reading the call log *)

(** The calls made since the log was [calls w]. *)
Definition new_calls (w w' : World) : list hw_call :=
  skipn (length (calls w)) (calls w').

(** The transmit transfers handed to the SDK, in call order. *)
Fixpoint sent_transfers (log : list hw_call) : list usart_transfer_t :=
  match log with
  | [] => []
  | USART_TransferSendDMA _ xfer :: rest => xfer :: sent_transfers rest
  | _ :: rest => sent_transfers rest
  end.

(** Whether DMA channel [ch] of controller [base] is enabled after [log]:
    the last enable or disable of that channel decides. *)
Definition dma_channel_enabled (log : list hw_call) (base ch : Z) : bool :=
  fold_left
    (fun en c =>
       match c with
       | DMA_EnableChannel b c' => if (b =? base) && (c' =? ch) then true else en
       | DMA_DisableChannel b c' => if (b =? base) && (c' =? ch) then false else en
       | _ => en
       end)
    log false.

(** Whether the serial engine [base] may be enabled after [log]: it may be
    from a USART_Init on (whatever that call returned) and is not after a
    USART_Deinit. *)
Definition usart_enabled (log : list hw_call) (base : Z) : bool :=
  fold_left
    (fun en c =>
       match c with
       | USART_Init b _ _ _ => if b =? base then true else en
       | USART_Deinit b => if b =? base then false else en
       | _ => en
       end)
    log false.

(** The calls [Deinit] makes for configuration [cfg]. *)
Definition teardown_calls (cfg : Config) : list hw_call :=
  [ interrupt_lock_lock;
    DMA_DisableChannel (dma_base cfg) (tx_dma_ch cfg);
    DMA_DisableChannel (dma_base cfg) (rx_dma_ch cfg);
    interrupt_lock_unlock;
    USART_Deinit (usart_base cfg) ].

(** No write is under way: the busy flag and the latch are clear and the
    transmitter is idle. *)
Definition idle (w : World) : Prop :=
  busy (tx_data_ (self w)) = false /\
  notification (tx_data_ (self w)) = false /\
  tx_in_flight w = None.

(** A write is under way: the busy flag is set. *)
Definition write_in_flight (w : World) : Prop :=
  busy (tx_data_ (self w)) = true.

(** [b] is non-empty and its length can be advanced by one maximal chunk
    without leaving the range of [size_t], so that the sum
    [tx_idx + kUsartDmaMaxTransferCount] of [TriggerWriteDma] never wraps.
    Every buffer that fits the memory of the 32-bit target is in that
    range. *)
Definition chunkable (kMax : Z) (b : ConstByteSpan) : Prop :=
  0 < kMax /\ 0 < size_bytes b /\ size_bytes b + kMax <= size_t_modulus.

(** Each transfer of [l] starts where the bytes handed over so far ([sofar])
    end and is min(max-chunk, remaining) bytes long. *)
Fixpoint clamped_chunks (kMax : Z) (b : ConstByteSpan) (sofar : Z)
    (l : list usart_transfer_t) : Prop :=
  match l with
  | [] => True
  | t :: rest =>
      txData t = span_data b + sofar /\
      dataSize t = Z.min kMax (size_bytes b - sofar) /\
      clamped_chunks kMax b (sofar + dataSize t) rest
  end.

(** The same world with the initialized flag forced to [v]. *)
Definition with_initialized (v : bool) (w : World) : World :=
  with_self (set_initialized v) w.

Definition Outcome_map {A : Type} (f : World -> World) (o : Outcome A) : Outcome A :=
  match o with
  | Returned a w => Returned a (f w)
  | Aborted w => Aborted (f w)
  | Blocked w => Blocked (f w)
  end.

(** Modelled from the spec: the constructor (declared in dma_stream.h, which
    is not among the embedded sources).  The
    transmit record starts default/empty, the instance is not initialized;
    nothing has been asked of the SDK yet. *)
Definition constructed (cfg : Config) : World :=
  {| self :=
       {| config_ := cfg;
          initialized_ := false;
          tx_data_ :=
            {| buffer := {| span_data := nullptr; size_bytes := 0 |};
               tx_idx := 0;
               transfer := {| txData := nullptr; dataSize := 0 |};
               busy := false;
               notification := false |} |};
     calls := [];
     tx_in_flight := None;
     memory := fun _ => 0 |}.

(* ------------------------------------------------------------------ *)
(** ** Concrete instances used to exercise the theorems *)

(** A FLEXCOMM USART with DMA0 channels 0 (receive) and 1 (transmit). *)
Definition demo_config : Config :=
  {| usart_base := 0x40106000;
     baud_rate := 115200;
     parity := kUSART_ParityDisabled;
     dma_base := 0x40104000;
     rx_dma_ch := 0;
     tx_dma_ch := 1;
     rx_input_mux_dmac_ch_request_en := 0;
     tx_input_mux_dmac_ch_request_en := 1 |}.

Definition demo_defaults : usart_config_t :=
  {| baudRate_Bps := 9600;
     parityMode := kUSART_ParityDisabled;
     enableTx := false;
     enableRx := false;
     usart_other := 0 |}.

(** An SDK on which every call succeeds. *)
Definition sdk_ok : Vendor :=
  {| default_config := demo_defaults;
     USART_Init_ret := fun _ _ _ _ => kStatus_Success;
     USART_TransferCreateHandleDMA_ret := fun _ _ => kStatus_Success |}.

(** An SDK on which binding the DMA handles fails. *)
Definition sdk_bind_fails : Vendor :=
  {| default_config := demo_defaults;
     USART_Init_ret := fun _ _ _ _ => kStatus_Success;
     USART_TransferCreateHandleDMA_ret := fun _ _ => kStatus_InvalidArgument |}.

(** The transfer-count limit of the DMA engine used in the examples. *)
Definition demo_max_transfer : Z := 1024.

(** A buffer of 2.5 maximal chunks. *)
Definition demo_buffer : ConstByteSpan :=
  {| span_data := 0x20000000; size_bytes := 2560 |}.

Definition empty_buffer : ConstByteSpan :=
  {| span_data := 0x20000000; size_bytes := 0 |}.

(** [w] while some write holds the transmit path. *)
Definition mid_write : World :=
  writing demo_max_transfer (constructed demo_config) demo_buffer 1
    [chunk_at demo_max_transfer demo_buffer 0;
     chunk_at demo_max_transfer demo_buffer 1].

(** [w] after the calls [l] have been made. *)
Definition logged (l : list hw_call) (w : World) : World :=
  {| self := self w; calls := calls w ++ l;
     tx_in_flight := tx_in_flight w; memory := memory w |}.

(** The settings [Init] hands to USART_Init: the SDK's defaults with the baud
    rate and parity of the configuration, transmitter and receiver on. *)
Definition init_usart_config (sdk_ret : Vendor) (cfg : Config) : usart_config_t :=
  {| baudRate_Bps := baud_rate cfg;
     parityMode := parity cfg;
     enableTx := true;
     enableRx := true;
     usart_other := usart_other (default_config sdk_ret) |}.

(** The calls by which [Init] configures the serial engine; [r] is what
    USART_Init answered. *)
Definition configure_calls (sdk_ret : Vendor) (cfg : Config) (srcclk : Z)
    (r : status_t) : list hw_call :=
  [ USART_GetDefaultConfig;
    USART_Init (usart_base cfg) (init_usart_config sdk_ret cfg) srcclk r ].

(** The calls by which [Init] routes and enables the two DMA channels and
    creates their handles, inside the interrupt lock. *)
Definition enable_calls (cfg : Config) : list hw_call :=
  [ interrupt_lock_lock;
    INPUTMUX_Init;
    INPUTMUX_EnableSignal (rx_input_mux_dmac_ch_request_en cfg) true;
    INPUTMUX_EnableSignal (tx_input_mux_dmac_ch_request_en cfg) true;
    INPUTMUX_Deinit;
    DMA_EnableChannel (dma_base cfg) (tx_dma_ch cfg);
    DMA_EnableChannel (dma_base cfg) (rx_dma_ch cfg);
    DMA_CreateHandle tx_dma_handle (dma_base cfg) (tx_dma_ch cfg);
    DMA_CreateHandle rx_dma_handle (dma_base cfg) (rx_dma_ch cfg);
    interrupt_lock_unlock ].

(** The configuration is one [Init] accepts. *)
Definition config_valid (srcclk : Z) (cfg : Config) : Prop :=
  srcclk <> 0 /\ usart_base cfg <> nullptr /\
  baud_rate cfg <> 0 /\ dma_base cfg <> nullptr.

(** A configuration whose serial-engine handle was never set. *)
Definition config_without_usart : Config :=
  {| usart_base := nullptr;
     baud_rate := 115200;
     parity := kUSART_ParityDisabled;
     dma_base := 0x40104000;
     rx_dma_ch := 0;
     tx_dma_ch := 1;
     rx_input_mux_dmac_ch_request_en := 0;
     tx_input_mux_dmac_ch_request_en := 1 |}.

(** A configuration whose baud rate was never set. *)
Definition config_without_baud : Config :=
  {| usart_base := 0x40106000;
     baud_rate := 0;
     parity := kUSART_ParityDisabled;
     dma_base := 0x40104000;
     rx_dma_ch := 0;
     tx_dma_ch := 1;
     rx_input_mux_dmac_ch_request_en := 0;
     tx_input_mux_dmac_ch_request_en := 1 |}.

(** A configuration whose DMA-controller handle was never set. *)
Definition config_without_dma : Config :=
  {| usart_base := 0x40106000;
     baud_rate := 115200;
     parity := kUSART_ParityDisabled;
     dma_base := nullptr;
     rx_dma_ch := 0;
     tx_dma_ch := 1;
     rx_input_mux_dmac_ch_request_en := 0;
     tx_input_mux_dmac_ch_request_en := 1 |}.

(** The core clock of the examples, in Hz. *)
Definition demo_srcclk : Z := 48000000.

(* ------------------------------------------------------------------ *)
(** ** Further readings of the call log *)

(** Calls that touch the DMA and input-mux register space shared among
    peripherals: the calls [Init] and [Deinit] make inside the interrupt
    lock. *)
Definition touches_shared_registers (c : hw_call) : bool :=
  match c with
  | DMA_DisableChannel _ _
  | DMA_EnableChannel _ _
  | DMA_CreateHandle _ _ _
  | INPUTMUX_Init
  | INPUTMUX_EnableSignal _ _
  | INPUTMUX_Deinit => true
  | _ => false
  end.

(** Scan a log with the state of the interrupt lock ([held]).  The result is
    [None] when the lock is taken while held, released while free, or a
    shared-register call is made with the lock free; otherwise it is the
    state of the lock after the log. *)
Fixpoint lock_scan (held : bool) (log : list hw_call) : option bool :=
  match log with
  | [] => Some held
  | interrupt_lock_lock :: rest =>
      if held then None else lock_scan true rest
  | interrupt_lock_unlock :: rest =>
      if held then lock_scan false rest else None
  | c :: rest =>
      if touches_shared_registers c && negb held then None
      else lock_scan held rest
  end.

(** The log keeps the lock discipline and leaves the lock free. *)
Definition lock_disciplined (log : list hw_call) : Prop :=
  lock_scan false log = Some false.

(** The world an outcome carries. *)
Definition Outcome_world {A : Type} (o : Outcome A) : World :=
  match o with
  | Returned _ w => w
  | Aborted w => w
  | Blocked w => w
  end.

(** The bytes a list of transfers moves. *)
Fixpoint total_bytes (l : list usart_transfer_t) : Z :=
  match l with
  | [] => 0
  | t :: rest => dataSize t + total_bytes rest
  end.

(** [t] moves at least one byte and at most [kMax], all of them bytes of
    [b]. *)
Definition transfer_in_bounds (kMax : Z) (b : ConstByteSpan)
    (t : usart_transfer_t) : Prop :=
  0 < dataSize t <= kMax /\
  span_data b <= txData t /\
  txData t + dataSize t <= span_data b + size_bytes b.

(** From [w] to [w'] the only calls made are USART_TransferSendDMA calls on
    the configured serial engine, and configuration, initialized flag and
    memory are untouched. *)
Definition sends_only (w w' : World) : Prop :=
  config_ (self w') = config_ (self w) /\
  initialized_ (self w') = initialized_ (self w) /\
  memory w' = memory w /\
  exists l : list usart_transfer_t,
    calls w' = calls w ++
               map (USART_TransferSendDMA (usart_base (config_ (self w)))) l.

(** An SDK on which configuring the serial engine fails. *)
Definition sdk_usart_init_fails : Vendor :=
  {| default_config := demo_defaults;
     USART_Init_ret := fun _ _ _ _ => kStatus_USART_BaudrateNotSupport;
     USART_TransferCreateHandleDMA_ret := fun _ _ => kStatus_Success |}.

(** A second buffer, of one byte. *)
Definition one_byte_buffer : ConstByteSpan :=
  {| span_data := 0x20001000; size_bytes := 1 |}.

(* ------------------------------------------------------------------ *)
(** ** A client using one instance from one thread *)

(** The calls of the public interface.  A write carries the fuel its caller
    is willing to wait. *)
Inductive api_call : Type :=
| CallInit (srcclk : Z)
| CallRead (data : ByteSpan)
| CallWrite (data : ConstByteSpan) (fuel : nat).

(** The world a call returned in; nothing when it did not return. *)
Definition returned_world {A : Type} (o : Outcome A) : option World :=
  match o with
  | Returned _ w => Some w
  | _ => None
  end.

Definition api_step (kMax : Z) (sdk_ret : Vendor) (c : api_call) (w : World)
    : option World :=
  match c with
  | CallInit srcclk => returned_world (Init sdk_ret srcclk w)
  | CallRead data => returned_world (DoRead data w)
  | CallWrite data fuel => returned_world (DoWrite kMax fuel data w)
  end.

(** One call after the other, each started when the previous one returned. *)
Fixpoint run_api (kMax : Z) (sdk_ret : Vendor) (l : list api_call) (w : World)
    : option World :=
  match l with
  | [] => Some w
  | c :: rest =>
      match api_step kMax sdk_ret c w with
      | Some w' => run_api kMax sdk_ret rest w'
      | None => None
      end
  end.

(** The buffers written are spans whose length, advanced by one maximal
    chunk, stays in the range of [size_t]. *)
Definition api_call_in_range (kMax : Z) (c : api_call) : Prop :=
  match c with
  | CallWrite data _ =>
      0 <= size_bytes data /\ size_bytes data + kMax <= size_t_modulus
  | _ => True
  end.

(** A session on a fresh instance: initialize, read, write 2.5 chunks, write
    nothing, write one byte. *)
Definition demo_session : list api_call :=
  [ CallInit demo_srcclk;
    CallRead demo_buffer;
    CallWrite demo_buffer 3;
    CallWrite empty_buffer 0;
    CallWrite one_byte_buffer 1 ].

(* ================================================================== *)
(** * Properties *)

Lemma status_t_eqb_eq (a b : status_t) : status_t_eqb a b = true <-> a = b.
Proof. destruct a, b; simpl; split; intro H; try reflexivity; discriminate H. Qed.

Lemma status_t_eqb_neq (a b : status_t) : status_t_eqb a b = false <-> a <> b.
Proof.
  split.
  - intros H E. apply status_t_eqb_eq in E. congruence.
  - intro H. destruct (status_t_eqb a b) eqn:E; [|reflexivity].
    apply status_t_eqb_eq in E. contradiction.
Qed.

(** ** size_t arithmetic inside its range *)

Lemma size_t_of_small (z : Z) : 0 <= z < size_t_modulus -> size_t_of z = z.
Proof. intro H. unfold size_t_of. apply Z.mod_small. exact H. Qed.

(** ** Counting chunks *)

Section Chunks.
Variable kMax : Z.
Variable b : ConstByteSpan.
Hypothesis Hb : chunkable kMax b.

Let len := size_bytes b.

(** ceil: the last chunk starts inside the buffer and ends it. *)
Lemma chunk_count_bounds :
  let n := Z.of_nat (chunk_count kMax len) in
  (n - 1) * kMax < len <= n * kMax.
Proof.
  destruct Hb as (Hk & Hl & _). fold len in Hl.
  unfold chunk_count. cbv zeta.
  assert (Hq : 0 <= (len + kMax - 1) / kMax) by (apply Z.div_pos; lia).
  rewrite Z2Nat.id by exact Hq.
  pose proof (Z.div_mod (len + kMax - 1) kMax ltac:(lia)) as Hd.
  pose proof (Z.mod_pos_bound (len + kMax - 1) kMax Hk) as Hm.
  nia.
Qed.

Lemma chunk_count_pos : (0 < chunk_count kMax len)%nat.
Proof.
  pose proof chunk_count_bounds as H. cbv zeta in H.
  destruct Hb as (Hk & Hl & _). fold len in Hl.
  destruct (chunk_count kMax len); [simpl in H; lia | lia].
Qed.

(** A chunk index below the count starts strictly inside the buffer. *)
Lemma chunk_start_in_range (i : nat) :
  (i < chunk_count kMax len)%nat -> 0 <= Z.of_nat i * kMax < len.
Proof.
  intro Hi. pose proof chunk_count_bounds as H. cbv zeta in H.
  destruct Hb as (Hk & Hl & _). nia.
Qed.

(** Every chunk but the last is a full one; the last one ends the buffer. *)
Lemma chunk_next_in_range (i : nat) :
  (S i < chunk_count kMax len)%nat -> Z.of_nat i * kMax + kMax < len.
Proof.
  intro Hi. pose proof chunk_count_bounds as H. cbv zeta in H.
  destruct Hb as (Hk & Hl & _). nia.
Qed.

Lemma chunk_last_ends (i : nat) :
  S i = chunk_count kMax len -> len <= Z.of_nat i * kMax + kMax.
Proof.
  intro Hi. pose proof chunk_count_bounds as H. cbv zeta in H.
  rewrite <- Hi in H. destruct Hb as (Hk & Hl & _). nia.
Qed.

End Chunks.

(** ** One chunk at a time *)

(** [TriggerWriteDma] in one step: the descriptor it writes and the call it
    makes. *)
Lemma TriggerWriteDma_eq (kMax : Z) (w : World) :
  let tx := tx_data_ (self w) in
  let xfer :=
    {| txData := span_data (buffer tx) + tx_idx tx;
       dataSize := if size_t_add (tx_idx tx) kMax >? size_bytes (buffer tx)
                   then size_t_sub (size_bytes (buffer tx)) (tx_idx tx)
                   else kMax |} in
  TriggerWriteDma kMax w
  = Returned tt
      {| self := with_tx_data (set_transfer xfer) (self w);
         calls := calls w ++ [USART_TransferSendDMA (usart_base (config_ (self w))) xfer];
         tx_in_flight := match tx_in_flight w with
                         | Some t => Some t
                         | None => Some xfer
                         end;
         memory := memory w |}.
Proof.
  cbv zeta.
  unfold TriggerWriteDma, bind, get_tx_data, get_config, modify_transfer,
    modify_tx_data, USART_TransferSendDMA_call.
  destruct (size_t_add (tx_idx (tx_data_ (self w))) kMax
            >? size_bytes (buffer (tx_data_ (self w)))); reflexivity.
Qed.

Section WriteSteps.
Variable kMax : Z.
Variable w0 : World.
Variable b : ConstByteSpan.
Hypothesis Hb : chunkable kMax b.

(** The size [TriggerWriteDma] picks is the clamp min(max-chunk, remaining). *)
Lemma trigger_size_clamped (i : nat) :
  (i < chunk_count kMax (size_bytes b))%nat ->
  (if size_t_add (Z.of_nat i * kMax) kMax >? size_bytes b
   then size_t_sub (size_bytes b) (Z.of_nat i * kMax)
   else kMax)
  = Z.min kMax (size_bytes b - Z.of_nat i * kMax).
Proof.
  intro Hi. pose proof (chunk_start_in_range kMax b Hb i Hi) as Hr.
  destruct Hb as (Hk & Hl & Hw).
  unfold size_t_add, size_t_sub.
  rewrite !size_t_of_small by lia.
  destruct (Z.gtb_spec (Z.of_nat i * kMax + kMax) (size_bytes b)); lia.
Qed.

Lemma TriggerWriteDma_armed (i : nat) (x : usart_transfer_t)
    (sent : list usart_transfer_t) :
  (i < chunk_count kMax (size_bytes b))%nat ->
  TriggerWriteDma kMax (armed kMax w0 b i x sent)
  = Returned tt (writing kMax w0 b i (sent ++ [chunk_at kMax b i])).
Proof.
  intro Hi. rewrite TriggerWriteDma_eq. cbn.
  rewrite (trigger_size_clamped i Hi).
  unfold writing, chunk_at. rewrite map_app, app_assoc. reflexivity.
Qed.

(** Completion of a chunk that is not the last: the cursor moves one full
    chunk forward and the next chunk is handed to the SDK. *)
Lemma complete_inner_chunk (i : nat) (sent : list usart_transfer_t) :
  (S i < chunk_count kMax (size_bytes b))%nat ->
  usart_tx_dma_complete kMax (writing kMax w0 b i sent)
  = Returned tt (writing kMax w0 b (S i) (sent ++ [chunk_at kMax b (S i)])).
Proof.
  intro Hi.
  pose proof (chunk_next_in_range kMax b Hb i Hi) as Hn.
  pose proof (chunk_start_in_range kMax b Hb i ltac:(lia)) as Hr.
  destruct Hb as (Hk & Hl & Hw).
  assert (Hidx : size_t_add (Z.of_nat i * kMax)
                   (Z.min kMax (size_bytes b - Z.of_nat i * kMax))
                 = Z.of_nat (S i) * kMax).
  { unfold size_t_add. rewrite size_t_of_small by lia. lia. }
  set (W' := writing kMax w0 b (S i) _).
  unfold usart_tx_dma_complete, writing, chunk_at. cbn [tx_in_flight].
  unfold TxRxCompletionCallback. cbn [status_t_eqb].
  unfold bind at 1, modify_tx_data at 1.
  unfold bind at 1, get_tx_data at 1.
  cbn [with_self with_tx_data self tx_data_ set_tx_idx tx_idx transfer
       dataSize buffer calls memory tx_in_flight busy notification
       config_ initialized_].
  rewrite Hidx.
  destruct (Z.eqb_spec (Z.of_nat (S i) * kMax) (size_bytes b)) as [E|E]; [lia|].
  unfold bind at 1, PW_CHECK_INT_LT.
  destruct (Z.ltb_spec (Z.of_nat (S i) * kMax) (size_bytes b)) as [L|L]; [|lia].
  unfold with_self, with_tx_data, set_tx_idx.
  cbn [self tx_data_ tx_idx transfer dataSize buffer calls memory
       tx_in_flight busy notification config_ initialized_].
  rewrite Hidx.
  subst W'. apply (TriggerWriteDma_armed (S i) _ sent Hi).
Qed.

(** Completion of the last chunk: the cursor reaches the buffer length and
    the notification is signalled; nothing more is handed to the SDK. *)
Lemma complete_last_chunk (i : nat) (sent : list usart_transfer_t) :
  S i = chunk_count kMax (size_bytes b) ->
  usart_tx_dma_complete kMax (writing kMax w0 b i sent)
  = Returned tt (written kMax w0 b i sent true true).
Proof.
  intro Hi.
  pose proof (chunk_last_ends kMax b Hb i Hi) as Hn.
  pose proof (chunk_start_in_range kMax b Hb i ltac:(lia)) as Hr.
  destruct Hb as (Hk & Hl & Hw).
  assert (Hidx : size_t_add (Z.of_nat i * kMax)
                   (Z.min kMax (size_bytes b - Z.of_nat i * kMax))
                 = size_bytes b).
  { unfold size_t_add. rewrite size_t_of_small by lia. lia. }
  unfold usart_tx_dma_complete, writing, written, chunk_at. cbn [tx_in_flight].
  unfold TxRxCompletionCallback. cbn [status_t_eqb].
  unfold bind at 1, modify_tx_data at 1.
  unfold bind at 1, get_tx_data at 1.
  cbn [with_self with_tx_data self tx_data_ set_tx_idx tx_idx transfer
       dataSize buffer calls memory tx_in_flight busy notification
       config_ initialized_].
  rewrite Hidx. rewrite Z.eqb_refl.
  unfold notification_release, modify_tx_data.
  unfold with_self, with_tx_data, set_tx_idx, set_notification.
  cbn [self tx_data_ tx_idx transfer dataSize buffer calls memory
       tx_in_flight busy notification config_ initialized_].
  rewrite Hidx. reflexivity.
Qed.

End WriteSteps.

(** ** The whole write *)

Section WriteRun.
Variable kMax : Z.
Variable w0 : World.
Variable b : ConstByteSpan.
Hypothesis Hb : chunkable kMax b.

Let N := chunk_count kMax (size_bytes b).

(** While the caller sleeps with too little fuel for the remaining chunks,
    it is still blocked, [fuel] chunks further. *)
Lemma acquire_blocked (fuel : nat) :
  forall (i : nat) (sent : list usart_transfer_t),
    (i + fuel < N)%nat ->
    notification_acquire kMax fuel (writing kMax w0 b i sent)
    = Blocked (writing kMax w0 b (i + fuel)
                 (sent ++ map (chunk_at kMax b) (seq (S i) fuel))).
Proof.
  induction fuel as [|fuel IH]; intros i sent Hi.
  - cbn. rewrite Nat.add_0_r, app_nil_r. reflexivity.
  - cbn [notification_acquire].
    change (notification (tx_data_ (self (writing kMax w0 b i sent)))) with false.
    change (tx_in_flight (writing kMax w0 b i sent))
      with (Some (chunk_at kMax b i)).
    cbv iota. unfold bind.
    rewrite (complete_inner_chunk kMax w0 b Hb i sent) by (fold N; lia).
    rewrite IH by lia.
    rewrite <- app_assoc. cbn [seq map app].
    replace (S i + fuel)%nat with (i + S fuel)%nat by lia. reflexivity.
Qed.

(** With fuel for all remaining chunks the caller wakes up after the last
    one, and consumes the latch. *)
Lemma acquire_returns (fuel : nat) :
  forall (i : nat) (sent : list usart_transfer_t),
    (i < N)%nat -> (N <= i + fuel)%nat ->
    notification_acquire kMax fuel (writing kMax w0 b i sent)
    = Returned tt
        (written kMax w0 b (N - 1)
           (sent ++ map (chunk_at kMax b) (seq (S i) (N - 1 - i)))
           false true).
Proof.
  induction fuel as [|fuel IH]; intros i sent Hi Hf.
  - lia.
  - cbn [notification_acquire].
    change (notification (tx_data_ (self (writing kMax w0 b i sent)))) with false.
    change (tx_in_flight (writing kMax w0 b i sent))
      with (Some (chunk_at kMax b i)).
    cbv iota. unfold bind.
    destruct (Nat.eq_dec (S i) N) as [E|E].
    + rewrite (complete_last_chunk kMax w0 b Hb i sent) by exact E.
      replace (N - 1)%nat with i by lia.
      replace (i - i)%nat with 0%nat by lia.
      cbn [seq map]. rewrite app_nil_r.
      destruct fuel; reflexivity.
    + rewrite (complete_inner_chunk kMax w0 b Hb i sent) by (fold N; lia).
      rewrite IH by lia.
      rewrite <- app_assoc.
      replace (N - 1 - i)%nat with (S (N - 1 - S i)) by lia.
      reflexivity.
Qed.

Hypothesis Hidle : idle w0.

(** [DoWrite] up to the point where the first chunk is triggered. *)
Lemma DoWrite_claims (fuel : nat) :
  DoWrite kMax fuel b w0
  = (TriggerWriteDma kMax ;;
     notification_acquire kMax fuel ;;
     busy_store false ;;
     ret OkStatus)
      (armed kMax w0 b 0 (transfer (tx_data_ (self w0))) []).
Proof.
  destruct Hb as (Hk & Hl & Hw). destruct Hidle as (Hbusy & Hlatch & Hfl).
  unfold DoWrite.
  destruct (Z.eqb_spec (size_bytes b) 0) as [E|_]; [lia|].
  unfold bind at 1, busy_exchange. rewrite Hbusy.
  unfold bind at 1, modify_tx_data at 1.
  unfold bind at 1, modify_tx_data at 1.
  f_equal. unfold armed, with_self, with_tx_data, set_busy, set_buffer, set_tx_idx.
  cbn. rewrite Hlatch, Hfl, app_nil_r. reflexivity.
Qed.

(** The outcome of [DoWrite] for every amount of fuel: blocked with chunk
    [fuel] in flight while fuel is short, returned with success once all
    [N] chunks have completed. *)
Lemma DoWrite_run (fuel : nat) :
  DoWrite kMax fuel b w0
  = if (fuel <? N)%nat
    then Blocked (writing kMax w0 b fuel
                    (map (chunk_at kMax b) (seq 0 (S fuel))))
    else Returned OkStatus
           (written kMax w0 b (N - 1) (spec_transfers kMax b) false false).
Proof.
  pose proof (chunk_count_pos kMax b Hb) as HN. fold N in HN.
  rewrite DoWrite_claims. unfold bind at 1.
  rewrite (TriggerWriteDma_armed kMax w0 b Hb 0 _ []) by exact HN.
  unfold bind at 1. cbn [app].
  destruct (Nat.ltb_spec fuel N) as [L|L].
  - rewrite (acquire_blocked fuel 0 _) by lia. reflexivity.
  - rewrite (acquire_returns fuel 0 _) by lia.
    unfold bind at 1, busy_store, modify_tx_data, ret.
    unfold with_self, with_tx_data, set_busy, written. cbn.
    unfold spec_transfers. fold N.
    replace (N - 1 - 0)%nat with (N - 1)%nat by lia.
    assert (Hseq : seq 0 N = 0%nat :: seq 1 (N - 1)).
    { destruct N as [|n]; [lia|]. cbn [seq]. do 2 f_equal. lia. }
    rewrite Hseq. reflexivity.
Qed.

End WriteRun.

(** ** Reading the log of a write *)

Lemma new_calls_app (w w' : World) (l : list hw_call) :
  calls w' = calls w ++ l -> new_calls w w' = l.
Proof.
  intro H. unfold new_calls. rewrite H, skipn_app, skipn_all, Nat.sub_diag.
  reflexivity.
Qed.

Lemma new_calls_same (w : World) : new_calls w w = [].
Proof. apply new_calls_app. rewrite app_nil_r. reflexivity. Qed.

Lemma sent_transfers_sends (base : Z) (l : list usart_transfer_t) :
  sent_transfers (map (USART_TransferSendDMA base) l) = l.
Proof. induction l as [|t l IH]; cbn; [reflexivity | rewrite IH; reflexivity]. Qed.

Section ChunkLists.
Variable kMax : Z.
Variable b : ConstByteSpan.
Hypothesis Hb : chunkable kMax b.

Let N := chunk_count kMax (size_bytes b).

(** Consecutive chunks of the specification are clamped and contiguous. *)
Lemma clamped_chunks_seq (m : nat) :
  forall i : nat,
    (i + m <= N)%nat ->
    clamped_chunks kMax b (Z.of_nat i * kMax)
      (map (chunk_at kMax b) (seq i m)).
Proof.
  induction m as [|m IH]; intros i Hi; cbn [seq map clamped_chunks].
  - exact I.
  - split; [reflexivity|]. split; [reflexivity|].
    destruct m as [|m'].
    + exact I.
    + pose proof (chunk_next_in_range kMax b Hb i ltac:(fold N; lia)) as Hn.
      replace (Z.of_nat i * kMax + dataSize (chunk_at kMax b i))
        with (Z.of_nat (S i) * kMax).
      * apply IH. lia.
      * cbn [chunk_at dataSize]. lia.
Qed.

Lemma spec_transfers_clamped : clamped_chunks kMax b 0 (spec_transfers kMax b).
Proof. apply (clamped_chunks_seq N 0). lia. Qed.

Lemma spec_transfers_length : length (spec_transfers kMax b) = N.
Proof. unfold spec_transfers. rewrite length_map, length_seq. reflexivity. Qed.

Lemma spec_transfers_nth (i : nat) (d : usart_transfer_t) :
  (i < N)%nat -> nth i (spec_transfers kMax b) d = chunk_at kMax b i.
Proof.
  intro Hi. unfold spec_transfers. fold N.
  rewrite (nth_indep _ d (chunk_at kMax b 0))
    by (rewrite length_map, length_seq; exact Hi).
  rewrite (map_nth (chunk_at kMax b) (seq 0 N) 0%nat i).
  rewrite seq_nth by exact Hi. reflexivity.
Qed.

(** Later transfers start at strictly larger addresses. *)
Lemma spec_transfers_increasing (i j : nat) (d : usart_transfer_t) :
  (i < j < N)%nat ->
  txData (nth i (spec_transfers kMax b) d)
  < txData (nth j (spec_transfers kMax b) d).
Proof.
  intros [Hij Hj]. rewrite !spec_transfers_nth by lia.
  destruct Hb as (Hk & _). cbn [chunk_at txData]. nia.
Qed.

End ChunkLists.

(** ** Chunked transmission *)

(** C1.  For every non-empty buffer [b] whose length plus one maximal chunk
    stays within [size_t], a [DoWrite] started on an idle instance returns
    success once its chunks have completed, and whenever it returns success
    the calls it made are exactly the USART_TransferSendDMA calls of the
    specification: ceil(len / max-chunk) of them, each starting where the
    previous one ended and min(max-chunk, remaining) bytes long, at strictly
    increasing addresses; the cursor ends at the buffer length. *)
Theorem DoWrite_chunked_transfers (kMax : Z) (w : World) (b : ConstByteSpan) :
  chunkable kMax b ->
  idle w ->
  (exists fuel w', DoWrite kMax fuel b w = Returned OkStatus w') /\
  (forall fuel w',
     DoWrite kMax fuel b w = Returned OkStatus w' ->
     let sent := sent_transfers (new_calls w w') in
     let n := Z.of_nat (length sent) in
     new_calls w w'
       = map (USART_TransferSendDMA (usart_base (config_ (self w)))) sent /\
     sent = spec_transfers kMax b /\
     n = (size_bytes b + kMax - 1) / kMax /\
     (n - 1) * kMax < size_bytes b <= n * kMax /\
     clamped_chunks kMax b 0 sent /\
     (forall i j d, (i < j < length sent)%nat ->
        txData (nth i sent d) < txData (nth j sent d)) /\
     tx_idx (tx_data_ (self w')) = size_bytes b).
Proof.
  intros Hb Hidle. split.
  - exists (chunk_count kMax (size_bytes b)). eexists.
    rewrite (DoWrite_run kMax w b Hb Hidle). rewrite Nat.ltb_irrefl. reflexivity.
  - intros fuel w' Hrun.
    rewrite (DoWrite_run kMax w b Hb Hidle) in Hrun.
    destruct (fuel <? chunk_count kMax (size_bytes b))%nat; [discriminate|].
    injection Hrun as <-.
    assert (Hnew : new_calls w
                     (written kMax w b (chunk_count kMax (size_bytes b) - 1)
                        (spec_transfers kMax b) false false)
                   = map (USART_TransferSendDMA (usart_base (config_ (self w))))
                       (spec_transfers kMax b))
      by (apply new_calls_app; reflexivity).
    cbv zeta. rewrite Hnew, sent_transfers_sends.
    rewrite (spec_transfers_length kMax b).
    pose proof (chunk_count_bounds kMax b Hb) as Hceil. cbv zeta in Hceil.
    repeat split.
    + unfold chunk_count. rewrite Z2Nat.id; [reflexivity|].
      destruct Hb as (Hk & Hl & _). apply Z.div_pos; lia.
    + apply Hceil.
    + apply Hceil.
    + apply (spec_transfers_clamped kMax b Hb).
    + intros i j d Hij. apply (spec_transfers_increasing kMax b Hb i j d Hij).
Qed.

(** The hypotheses of C1 hold for the 2.5-chunk buffer on a fresh instance. *)
Lemma DoWrite_chunked_transfers_witness :
  (exists fuel w',
     DoWrite demo_max_transfer fuel demo_buffer (constructed demo_config)
     = Returned OkStatus w') /\
  (forall fuel w',
     DoWrite demo_max_transfer fuel demo_buffer (constructed demo_config)
     = Returned OkStatus w' ->
     let sent := sent_transfers (new_calls (constructed demo_config) w') in
     let n := Z.of_nat (length sent) in
     new_calls (constructed demo_config) w'
       = map (USART_TransferSendDMA
                (usart_base (config_ (self (constructed demo_config))))) sent /\
     sent = spec_transfers demo_max_transfer demo_buffer /\
     n = (size_bytes demo_buffer + demo_max_transfer - 1) / demo_max_transfer /\
     (n - 1) * demo_max_transfer < size_bytes demo_buffer <= n * demo_max_transfer /\
     clamped_chunks demo_max_transfer demo_buffer 0 sent /\
     (forall i j d, (i < j < length sent)%nat ->
        txData (nth i sent d) < txData (nth j sent d)) /\
     tx_idx (tx_data_ (self w')) = size_bytes demo_buffer).
Proof.
  apply (DoWrite_chunked_transfers demo_max_transfer (constructed demo_config)
           demo_buffer).
  - unfold chunkable. vm_compute. repeat split; discriminate.
  - unfold idle. repeat split; reflexivity.
Defined.

(** Section 8's scenario, run: a buffer of 2.5 maximal chunks is sent as
    three transfers of max-chunk, max-chunk and half a chunk. *)
Example DoWrite_two_and_a_half_chunks :
  exists w',
    DoWrite demo_max_transfer 3 demo_buffer (constructed demo_config)
    = Returned OkStatus w' /\
    calls w' = [ USART_TransferSendDMA 0x40106000
                   {| txData := 0x20000000; dataSize := 1024 |};
                 USART_TransferSendDMA 0x40106000
                   {| txData := 0x20000400; dataSize := 1024 |};
                 USART_TransferSendDMA 0x40106000
                   {| txData := 0x20000800; dataSize := 512 |} ] /\
    tx_idx (tx_data_ (self w')) = 2560.
Proof. eexists. vm_compute. repeat split. Qed.

(** The cursor after each of the three completion callbacks of that write. *)
Example DoWrite_cursor_sequence :
  (exists w1, DoWrite demo_max_transfer 1 demo_buffer (constructed demo_config)
              = Blocked w1 /\ tx_idx (tx_data_ (self w1)) = 1024) /\
  (exists w2, DoWrite demo_max_transfer 2 demo_buffer (constructed demo_config)
              = Blocked w2 /\ tx_idx (tx_data_ (self w2)) = 2048) /\
  (exists w3, DoWrite demo_max_transfer 3 demo_buffer (constructed demo_config)
              = Returned OkStatus w3 /\ tx_idx (tx_data_ (self w3)) = 2560).
Proof. repeat split; eexists; vm_compute; split; reflexivity. Qed.

(** ** The cursor during a write *)

(** C2.  Take a write of a non-empty buffer [b] (whose length plus one
    maximal chunk stays within [size_t]) started on an idle instance, at any
    moment [wk] at which the caller is blocked on the notification ([k]
    completion callbacks have run).  The chunk in flight is clamped to the
    remaining bytes; the next TxIdle callback returns (its PW_CHECK_INT_LT
    holds), adds that non-negative size to the cursor, and leaves the cursor
    either equal to the buffer length, with the notification signalled and no
    further transfer (the write then returns), or strictly below it, with
    exactly the next chunk triggered (the write then blocks again).  The
    write never dies on the check. *)
Theorem tx_idx_monotone_and_bounded (kMax : Z) (w : World) (b : ConstByteSpan) :
  chunkable kMax b ->
  idle w ->
  (forall k wk,
     DoWrite kMax k b w = Blocked wk ->
     let tx := tx_data_ (self wk) in
     0 <= tx_idx tx < size_bytes (buffer tx) /\
     buffer tx = b /\
     tx_in_flight wk = Some (transfer tx) /\
     dataSize (transfer tx) = Z.min kMax (size_bytes b - tx_idx tx) /\
     0 <= dataSize (transfer tx) /\
     exists wk',
       TxRxCompletionCallback kMax kStatus_USART_TxIdle
         {| self := self wk; calls := calls wk;
            tx_in_flight := None; memory := memory wk |}
       = Returned tt wk' /\
       let tx' := tx_data_ (self wk') in
       tx_idx tx' = tx_idx tx + dataSize (transfer tx) /\
       tx_idx tx <= tx_idx tx' <= size_bytes b /\
       buffer tx' = b /\
       ((tx_idx tx' = size_bytes b /\
         notification tx' = true /\
         new_calls wk wk' = [] /\
         tx_in_flight wk' = None /\
         exists w', DoWrite kMax (S k) b w = Returned OkStatus w')
        \/
        (tx_idx tx' < size_bytes b /\
         notification tx' = false /\
         new_calls wk wk'
           = [USART_TransferSendDMA (usart_base (config_ (self wk)))
                {| txData := span_data b + tx_idx tx';
                   dataSize := Z.min kMax (size_bytes b - tx_idx tx') |}] /\
         tx_in_flight wk' = Some (transfer tx') /\
         DoWrite kMax (S k) b w = Blocked wk')))
  /\
  (forall k wk, DoWrite kMax k b w = Aborted wk -> False).
Proof.
  intros Hb Hidle. split.
  - intros k wk Hrun.
    rewrite (DoWrite_run kMax w b Hb Hidle) in Hrun.
    destruct (Nat.ltb_spec k (chunk_count kMax (size_bytes b))) as [Hk|Hk];
      [|discriminate].
    injection Hrun as <-.
    set (sent := map (chunk_at kMax b) (seq 0 (S k))).
    pose proof (chunk_start_in_range kMax b Hb k Hk) as Hr.
    assert (Hpos : 0 < kMax) by (destruct Hb as (Hp & _); exact Hp).
    cbv zeta. cbn [writing self tx_data_ tx_idx buffer transfer tx_in_flight
                   chunk_at dataSize calls memory].
    repeat (split; [first [reflexivity | lia]|]).
    assert (Hstep : exists wk',
               usart_tx_dma_complete kMax (writing kMax w b k sent) = Returned tt wk' /\
               (wk' = writing kMax w b (S k) (sent ++ [chunk_at kMax b (S k)]) /\
                (S k < chunk_count kMax (size_bytes b))%nat
                \/ wk' = written kMax w b k sent true true /\
                   S k = chunk_count kMax (size_bytes b))).
    { destruct (Nat.eq_dec (S k) (chunk_count kMax (size_bytes b))) as [E|E].
      - eexists. split; [apply (complete_last_chunk kMax w b Hb k sent E)|].
        right. split; [reflexivity | exact E].
      - eexists. split; [apply (complete_inner_chunk kMax w b Hb k sent); lia|].
        left. split; [reflexivity | lia]. }
    destruct Hstep as (wk' & Hcb & Hshape). exists wk'.
    split; [exact Hcb|].
    destruct Hshape as [[-> Hlt] | [-> Heq]].
    + pose proof (chunk_next_in_range kMax b Hb k Hlt) as Hn.
      cbn [writing self tx_data_ tx_idx buffer transfer tx_in_flight
           chunk_at dataSize calls memory notification config_].
      repeat (split; [first [reflexivity | lia]|]).
      right. repeat (split; [first [reflexivity | lia]|]).
      split; [|split; [reflexivity|]].
      * apply new_calls_app. cbn [calls writing config_ self].
        rewrite map_app, app_assoc. reflexivity.
      * rewrite (DoWrite_run kMax w b Hb Hidle).
        destruct (Nat.ltb_spec (S k) (chunk_count kMax (size_bytes b))); [|lia].
        unfold sent. rewrite (seq_S (S k) 0), map_app. reflexivity.
    + pose proof (chunk_last_ends kMax b Hb k Heq) as Hn.
      cbn [written self tx_data_ tx_idx buffer transfer tx_in_flight
           chunk_at dataSize calls memory notification config_].
      repeat (split; [first [reflexivity | lia]|]).
      left. repeat (split; [first [reflexivity | lia]|]).
      split; [|split; [reflexivity|]].
      * apply new_calls_app. cbn [calls writing]. rewrite app_nil_r. reflexivity.
      * eexists. rewrite (DoWrite_run kMax w b Hb Hidle).
        destruct (Nat.ltb_spec (S k) (chunk_count kMax (size_bytes b))); [lia|].
        reflexivity.
  - intros k wk Hrun.
    rewrite (DoWrite_run kMax w b Hb Hidle) in Hrun.
    destruct (k <? chunk_count kMax (size_bytes b))%nat; discriminate.
Qed.

(** The hypotheses of C2 hold for the 2.5-chunk buffer on a fresh instance;
    there the write never dies on the consistency check. *)
Lemma tx_idx_monotone_and_bounded_witness :
  chunkable demo_max_transfer demo_buffer /\
  idle (constructed demo_config) /\
  (forall k wk,
     DoWrite demo_max_transfer k demo_buffer (constructed demo_config)
     = Aborted wk -> False).
Proof.
  assert (Hb : chunkable demo_max_transfer demo_buffer)
    by (unfold chunkable; vm_compute; repeat split; discriminate).
  assert (Hi : idle (constructed demo_config))
    by (unfold idle; repeat split; reflexivity).
  split; [exact Hb|]. split; [exact Hi|].
  exact (proj2 (tx_idx_monotone_and_bounded demo_max_transfer
                  (constructed demo_config) demo_buffer Hb Hi)).
Defined.

(** ** Rejected writes *)

(** C3.  While a write holds the busy flag, a second [DoWrite] with a
    non-empty buffer returns FailedPrecondition whatever the fuel (also with
    none: it does not wait), and the world it leaves is the world it found:
    buffer reference, cursor, transfer descriptor, busy flag, notification,
    the transfer in flight and the call log are untouched.  The exchange on
    the busy flag reports that it was set and leaves it set. *)
Theorem DoWrite_busy_rejected (kMax : Z) (fuel : nat) (w : World)
    (b : ConstByteSpan) :
  write_in_flight w ->
  size_bytes b <> 0 ->
  busy_exchange true w = Returned true w /\
  DoWrite kMax fuel b w = Returned FailedPrecondition w.
Proof.
  unfold write_in_flight. intros Hbusy Hne.
  assert (Hx : busy_exchange true w = Returned true w).
  { unfold busy_exchange, with_self, with_tx_data, set_busy.
    destruct w as [[cfg ini [buf idx xfer bsy latch]] log fl mem].
    cbn in Hbusy |- *. subst bsy. reflexivity. }
  split; [exact Hx|].
  unfold DoWrite.
  destruct (Z.eqb_spec (size_bytes b) 0) as [E|_]; [contradiction|].
  unfold bind at 1. rewrite Hx. reflexivity.
Qed.

Lemma DoWrite_busy_rejected_witness :
  busy_exchange true mid_write = Returned true mid_write /\
  DoWrite demo_max_transfer 0 demo_buffer mid_write
  = Returned FailedPrecondition mid_write.
Proof.
  apply (DoWrite_busy_rejected demo_max_transfer 0 mid_write demo_buffer).
  - reflexivity.
  - discriminate.
Defined.

(** C7.  [DoWrite] of an empty buffer returns InvalidArgument and leaves the
    world as it found it: the busy flag is neither read nor set, the transmit
    record is unchanged and no call reaches the SDK. *)
Theorem DoWrite_empty_rejected (kMax : Z) (fuel : nat) (w : World)
    (b : ConstByteSpan) :
  size_bytes b = 0 ->
  DoWrite kMax fuel b w = Returned InvalidArgument w.
Proof.
  intro Hz. unfold DoWrite. rewrite Hz. reflexivity.
Qed.

Lemma DoWrite_empty_rejected_witness :
  DoWrite demo_max_transfer 0 empty_buffer (constructed demo_config)
  = Returned InvalidArgument (constructed demo_config).
Proof.
  apply (DoWrite_empty_rejected demo_max_transfer 0 (constructed demo_config)
           empty_buffer).
  reflexivity.
Defined.

(** An empty write is rejected in the same way while another write is in
    flight: the busy flag is not consulted. *)
Example DoWrite_empty_while_busy :
  DoWrite demo_max_transfer 0 empty_buffer mid_write
  = Returned InvalidArgument mid_write.
Proof. reflexivity. Qed.

(** ** After a write *)

Lemma bind_Returned {A B : Type} (m : M A) (k : A -> M B) (w w' : World) (y : B) :
  bind m k w = Returned y w' ->
  exists x w1, m w = Returned x w1 /\ k x w1 = Returned y w'.
Proof.
  unfold bind. destruct (m w) as [x w1 | w1 | w1]; intro H;
    [exists x, w1; split; [reflexivity | exact H] | discriminate | discriminate].
Qed.

(** Whatever the state it starts in, a [DoWrite] that returns success has
    stored [false] into the busy flag as its last action. *)
Lemma DoWrite_ok_clears_busy (kMax : Z) (fuel : nat) (b : ConstByteSpan)
    (w w' : World) :
  DoWrite kMax fuel b w = Returned OkStatus w' ->
  busy (tx_data_ (self w')) = false.
Proof.
  unfold DoWrite.
  destruct (size_bytes b =? 0); [discriminate|].
  intro H. apply bind_Returned in H. destruct H as (was_busy & w1 & _ & H).
  destruct was_busy; [discriminate|].
  apply bind_Returned in H. destruct H as (_ & w2 & _ & H).
  apply bind_Returned in H. destruct H as (_ & w3 & _ & H).
  apply bind_Returned in H. destruct H as (_ & w4 & _ & H).
  apply bind_Returned in H. destruct H as (_ & w5 & _ & H).
  apply bind_Returned in H. destruct H as (u & w6 & Hstore & H).
  unfold ret in H. injection H as H. subst w'.
  unfold busy_store, modify_tx_data in Hstore. injection Hstore as Hstore.
  subst w6. reflexivity.
Qed.

(** A completed write leaves the instance idle again. *)
Lemma DoWrite_ok_idle (kMax : Z) (fuel : nat) (b : ConstByteSpan) (w w' : World) :
  chunkable kMax b -> idle w ->
  DoWrite kMax fuel b w = Returned OkStatus w' -> idle w'.
Proof.
  intros Hb Hidle Hrun. rewrite (DoWrite_run kMax w b Hb Hidle) in Hrun.
  destruct (fuel <? chunk_count kMax (size_bytes b))%nat; [discriminate|].
  injection Hrun as <-. unfold idle. repeat split; reflexivity.
Qed.

(** C9.  When [DoWrite] returns success the busy flag is false, so the next
    exchange on the flag reports "not busy": a following [DoWrite] with a
    non-empty buffer is not turned down with FailedPrecondition, and (the
    instance having been idle when the first write started) it runs to
    success in its turn. *)
Theorem DoWrite_ok_releases_busy (kMax : Z) (fuel : nat) (b : ConstByteSpan)
    (w w' : World) :
  DoWrite kMax fuel b w = Returned OkStatus w' ->
  busy (tx_data_ (self w')) = false /\
  (exists w'', busy_exchange true w' = Returned false w'') /\
  (forall fuel2 b2 w2,
     size_bytes b2 <> 0 ->
     DoWrite kMax fuel2 b2 w' = Returned FailedPrecondition w2 -> False) /\
  (idle w -> chunkable kMax b ->
   forall b2, chunkable kMax b2 ->
     exists fuel2 w2, DoWrite kMax fuel2 b2 w' = Returned OkStatus w2).
Proof.
  intro Hrun.
  pose proof (DoWrite_ok_clears_busy kMax fuel b w w' Hrun) as Hbusy.
  split; [exact Hbusy|]. split; [|split].
  - eexists. unfold busy_exchange. rewrite Hbusy. reflexivity.
  - intros fuel2 b2 w2 Hne H2. unfold DoWrite in H2.
    destruct (Z.eqb_spec (size_bytes b2) 0) as [E|_]; [contradiction|].
    apply bind_Returned in H2. destruct H2 as (was_busy & w1 & Hx & H2).
    unfold busy_exchange in Hx. rewrite Hbusy in Hx. injection Hx as <- <-.
    apply bind_Returned in H2. destruct H2 as (_ & w3 & _ & H2).
    apply bind_Returned in H2. destruct H2 as (_ & w4 & _ & H2).
    apply bind_Returned in H2. destruct H2 as (_ & w5 & _ & H2).
    apply bind_Returned in H2. destruct H2 as (_ & w6 & _ & H2).
    apply bind_Returned in H2. destruct H2 as (_ & w7 & _ & H2).
    discriminate H2.
  - intros Hidle Hb b2 Hb2.
    pose proof (DoWrite_ok_idle kMax fuel b w w' Hb Hidle Hrun) as Hidle'.
    exists (chunk_count kMax (size_bytes b2)). eexists.
    rewrite (DoWrite_run kMax w' b2 Hb2 Hidle'), Nat.ltb_irrefl. reflexivity.
Qed.

(** The world in which the 2.5-chunk write on a fresh instance returns. *)
Lemma DoWrite_ok_releases_busy_witness :
  let w' := written demo_max_transfer (constructed demo_config) demo_buffer 2
              (spec_transfers demo_max_transfer demo_buffer) false false in
  busy (tx_data_ (self w')) = false /\
  (exists w'', busy_exchange true w' = Returned false w'') /\
  (forall fuel2 b2 w2,
     size_bytes b2 <> 0 ->
     DoWrite demo_max_transfer fuel2 b2 w' = Returned FailedPrecondition w2 ->
     False) /\
  (idle (constructed demo_config) -> chunkable demo_max_transfer demo_buffer ->
   forall b2, chunkable demo_max_transfer b2 ->
     exists fuel2 w2, DoWrite demo_max_transfer fuel2 b2 w' = Returned OkStatus w2).
Proof.
  apply (DoWrite_ok_releases_busy demo_max_transfer 3 demo_buffer
           (constructed demo_config)).
  vm_compute. reflexivity.
Defined.

(** Two writes in a row on one instance both succeed. *)
Example DoWrite_twice :
  match DoWrite demo_max_transfer 3 demo_buffer (constructed demo_config) with
  | Returned OkStatus w1 =>
      match DoWrite demo_max_transfer 3 demo_buffer w1 with
      | Returned OkStatus w2 => length (calls w2) = 6%nat
      | _ => False
      end
  | _ => False
  end.
Proof. vm_compute. reflexivity. Qed.

(** ** Lifecycle *)

Lemma Deinit_eq (w : World) :
  Deinit w = Returned tt (logged (teardown_calls (config_ (self w))) w).
Proof.
  unfold Deinit, bind, get_config, sdk, log_call, logged, teardown_calls. cbn.
  rewrite <- !app_assoc. reflexivity.
Qed.

(** [Init] on a configuration it does not accept. *)
Lemma Init_invalid (sdk_ret : Vendor) (srcclk : Z) (w : World) :
  srcclk = 0 \/
  usart_base (config_ (self w)) = nullptr \/
  baud_rate (config_ (self w)) = 0 \/
  dma_base (config_ (self w)) = nullptr ->
  Init sdk_ret srcclk w = Returned InvalidArgument w.
Proof.
  intro H. unfold Init, bind at 1, get_config.
  destruct (Z.eqb_spec srcclk 0) as [|H1]; [reflexivity|].
  destruct (Z.eqb_spec (usart_base (config_ (self w))) nullptr) as [|H2];
    [reflexivity|].
  destruct (Z.eqb_spec (baud_rate (config_ (self w))) 0) as [|H3];
    [reflexivity|].
  destruct (Z.eqb_spec (dma_base (config_ (self w))) nullptr) as [|H4];
    [reflexivity|].
  destruct H as [H | [H | [H | H]]]; contradiction.
Qed.

(** [Init] on an accepted configuration, as one expression of the two
    answers of the SDK. *)
Lemma Init_eq (sdk_ret : Vendor) (srcclk : Z) (w : World) :
  config_valid srcclk (config_ (self w)) ->
  Init sdk_ret srcclk w
  = let cfg := config_ (self w) in
    let r1 := USART_Init_ret sdk_ret (calls w ++ [USART_GetDefaultConfig])
                (usart_base cfg) (init_usart_config sdk_ret cfg) srcclk in
    if negb (status_t_eqb r1 kStatus_Success) then
      Returned Internal (logged (configure_calls sdk_ret cfg srcclk r1) w)
    else
      let r2 := USART_TransferCreateHandleDMA_ret sdk_ret
                  (calls w ++ configure_calls sdk_ret cfg srcclk r1
                           ++ enable_calls cfg)
                  (usart_base cfg) in
      if negb (status_t_eqb r2 kStatus_Success) then
        Returned Internal
          (logged (configure_calls sdk_ret cfg srcclk r1
                   ++ enable_calls cfg
                   ++ USART_TransferCreateHandleDMA (usart_base cfg) r2
                      :: teardown_calls cfg) w)
      else
        Returned OkStatus
          (with_initialized true
             (logged (configure_calls sdk_ret cfg srcclk r1
                      ++ enable_calls cfg
                      ++ [USART_TransferCreateHandleDMA (usart_base cfg) r2]) w)).
Proof.
  intros (H1 & H2 & H3 & H4). cbv zeta.
  unfold Init, bind at 1, get_config.
  destruct (Z.eqb_spec srcclk 0); [contradiction|].
  destruct (Z.eqb_spec (usart_base (config_ (self w))) nullptr); [contradiction|].
  destruct (Z.eqb_spec (baud_rate (config_ (self w))) 0); [contradiction|].
  destruct (Z.eqb_spec (dma_base (config_ (self w))) nullptr); [contradiction|].
  unfold bind at 1, USART_GetDefaultConfig_call.
  unfold bind at 1, USART_Init_call. cbv zeta.
  fold (init_usart_config sdk_ret (config_ (self w))).
  cbn [log_call calls self].
  destruct (negb (status_t_eqb _ kStatus_Success)).
  - unfold ret, log_call, logged, configure_calls. cbn.
    rewrite <- !app_assoc. reflexivity.
  - unfold bind, sdk, USART_TransferCreateHandleDMA_call. cbv zeta.
    cbn [log_call self calls tx_in_flight memory].
    unfold configure_calls, enable_calls.
    rewrite <- !app_assoc. cbn [app].
    destruct (negb (status_t_eqb _ kStatus_Success)).
    + rewrite Deinit_eq.
      unfold ret, logged, teardown_calls. cbn.
      rewrite <- !app_assoc. reflexivity.
    + unfold store_initialized, ret, with_initialized, with_self, logged. cbn.
      rewrite <- !app_assoc. reflexivity.
Qed.

Lemma config_valid_dec (srcclk : Z) (cfg : Config) :
  config_valid srcclk cfg \/
  (srcclk = 0 \/ usart_base cfg = nullptr \/ baud_rate cfg = 0 \/
   dma_base cfg = nullptr).
Proof.
  unfold config_valid.
  destruct (Z.eq_dec srcclk 0); [right; tauto|].
  destruct (Z.eq_dec (usart_base cfg) nullptr); [right; tauto|].
  destruct (Z.eq_dec (baud_rate cfg) 0); [right; tauto|].
  destruct (Z.eq_dec (dma_base cfg) nullptr); [right; tauto|].
  left. tauto.
Qed.

(** After the calls of a teardown, both channels are disabled and the serial
    engine is off, whatever was logged before. *)
Lemma teardown_disables (cfg : Config) (log : list hw_call) :
  dma_channel_enabled (log ++ teardown_calls cfg) (dma_base cfg) (tx_dma_ch cfg)
  = false /\
  dma_channel_enabled (log ++ teardown_calls cfg) (dma_base cfg) (rx_dma_ch cfg)
  = false /\
  usart_enabled (log ++ teardown_calls cfg) (usart_base cfg) = false.
Proof.
  unfold dma_channel_enabled, usart_enabled, teardown_calls.
  rewrite !fold_left_app. cbn [fold_left].
  rewrite !Z.eqb_refl. cbn [andb].
  repeat split.
  destruct (rx_dma_ch cfg =? tx_dma_ch cfg); reflexivity.
Qed.

(** C5.  If an [Init] call reached the binding step and the binding call
    (USART_TransferCreateHandleDMA) did not return success, then [Init]
    returns Internal, the calls of [Deinit] are the last thing it did, right
    after the failed binding call, both DMA channels are disabled and the
    serial engine is off when it returns, and the driver object is unchanged:
    the initialized flag was not set. *)
Theorem Init_bind_failure_rolls_back (sdk_ret : Vendor) (srcclk : Z)
    (w w' : World) (st : Status) :
  Init sdk_ret srcclk w = Returned st w' ->
  (exists base r,
     In (USART_TransferCreateHandleDMA base r) (new_calls w w') /\
     r <> kStatus_Success) ->
  let cfg := config_ (self w) in
  st = Internal /\
  (exists pre r,
     r <> kStatus_Success /\
     new_calls w w'
     = pre ++ USART_TransferCreateHandleDMA (usart_base cfg) r
              :: teardown_calls cfg) /\
  dma_channel_enabled (calls w') (dma_base cfg) (tx_dma_ch cfg) = false /\
  dma_channel_enabled (calls w') (dma_base cfg) (rx_dma_ch cfg) = false /\
  usart_enabled (calls w') (usart_base cfg) = false /\
  self w' = self w /\
  (initialized_ (self w) = false -> initialized_ (self w') = false).
Proof.
  intros Hrun (base & r & Hin & Hr). cbv zeta.
  destruct (config_valid_dec srcclk (config_ (self w))) as [Hv | Hbad].
  2:{ rewrite (Init_invalid sdk_ret srcclk w Hbad) in Hrun.
      injection Hrun as _ <-. rewrite new_calls_same in Hin. destruct Hin. }
  rewrite (Init_eq sdk_ret srcclk w Hv) in Hrun. cbv zeta in Hrun.
  set (cfg := config_ (self w)) in *.
  set (r1 := USART_Init_ret sdk_ret _ _ _ _) in Hrun.
  destruct (status_t_eqb r1 kStatus_Success) eqn:E1; cbn [negb] in Hrun.
  2:{ injection Hrun as _ <-.
      rewrite (new_calls_app w _ (configure_calls sdk_ret cfg srcclk r1)) in Hin
        by reflexivity.
      cbn in Hin. destruct Hin as [Hin | [Hin | []]]; discriminate Hin. }
  set (r2 := USART_TransferCreateHandleDMA_ret sdk_ret _ _) in Hrun.
  destruct (status_t_eqb r2 kStatus_Success) eqn:E2; cbn [negb] in Hrun.
  - injection Hrun as _ <-. apply status_t_eqb_eq in E2.
    rewrite (new_calls_app w _
               (configure_calls sdk_ret cfg srcclk r1 ++ enable_calls cfg ++
                [USART_TransferCreateHandleDMA (usart_base cfg) r2])) in Hin
      by reflexivity.
    cbn in Hin.
    repeat (destruct Hin as [Hin | Hin]; [discriminate Hin|]).
    destruct Hin as [Hin | []].
    injection Hin as _ Hr2. congruence.
  - assert (Hst : st = Internal) by congruence.
    assert (Hw' : w' = logged (configure_calls sdk_ret cfg srcclk r1 ++
                               enable_calls cfg ++
                               USART_TransferCreateHandleDMA (usart_base cfg) r2
                               :: teardown_calls cfg) w) by congruence.
    clear Hrun. subst st w'. apply status_t_eqb_neq in E2.
    split; [reflexivity|]. split.
    { exists (configure_calls sdk_ret cfg srcclk r1 ++ enable_calls cfg), r2.
      split; [exact E2|].
      apply new_calls_app. cbn [logged calls]. rewrite <- app_assoc. reflexivity. }
    unfold logged. cbn [calls self].
    assert (Hlog : calls w ++
                   configure_calls sdk_ret cfg srcclk r1 ++
                   enable_calls cfg ++
                   USART_TransferCreateHandleDMA (usart_base cfg) r2
                   :: teardown_calls cfg
                   = (calls w ++ configure_calls sdk_ret cfg srcclk r1 ++
                      enable_calls cfg ++
                      [USART_TransferCreateHandleDMA (usart_base cfg) r2])
                     ++ teardown_calls cfg).
    { rewrite <- !app_assoc. reflexivity. }
    rewrite Hlog.
    destruct (teardown_disables cfg
                (calls w ++ configure_calls sdk_ret cfg srcclk r1 ++
                 enable_calls cfg ++
                 [USART_TransferCreateHandleDMA (usart_base cfg) r2]))
      as (Htx & Hrx & Hus).
    repeat split; try assumption.
    intro H. exact H.
Qed.

(** On a fresh instance whose SDK refuses the binding, [Init] rolls back. *)
Lemma Init_bind_failure_rolls_back_witness :
  let w := constructed demo_config in
  let w' := logged (configure_calls sdk_bind_fails demo_config demo_srcclk
                      kStatus_Success
                    ++ enable_calls demo_config
                    ++ USART_TransferCreateHandleDMA (usart_base demo_config)
                         kStatus_InvalidArgument
                       :: teardown_calls demo_config) w in
  Internal = Internal /\
  (exists pre r,
     r <> kStatus_Success /\
     new_calls w w'
     = pre ++ USART_TransferCreateHandleDMA (usart_base demo_config) r
              :: teardown_calls demo_config) /\
  dma_channel_enabled (calls w') (dma_base demo_config) (tx_dma_ch demo_config)
  = false /\
  dma_channel_enabled (calls w') (dma_base demo_config) (rx_dma_ch demo_config)
  = false /\
  usart_enabled (calls w') (usart_base demo_config) = false /\
  self w' = self w /\
  (initialized_ (self w) = false -> initialized_ (self w') = false).
Proof.
  apply (Init_bind_failure_rolls_back sdk_bind_fails demo_srcclk
           (constructed demo_config)).
  - reflexivity.
  - exists (usart_base demo_config), kStatus_InvalidArgument. split.
    + cbn. do 12 right. left. reflexivity.
    + discriminate.
Defined.

(** ** Validation at initialization *)

(** C4.  [Init] returns InvalidArgument when the clock frequency is zero, or
    the USART handle is null, or the baud rate is zero, or the DMA handle is
    null (any one suffices), and then leaves the world as it found it: the
    call log is unchanged, so no SDK routine (USART configuration, channel
    enable, binding) has run.  These are the only inputs it rejects so. *)
Theorem Init_rejects_invalid (sdk_ret : Vendor) (srcclk : Z) (w : World) :
  (srcclk = 0 \/
   usart_base (config_ (self w)) = nullptr \/
   baud_rate (config_ (self w)) = 0 \/
   dma_base (config_ (self w)) = nullptr ->
   Init sdk_ret srcclk w = Returned InvalidArgument w /\
   new_calls w w = []) /\
  (forall w',
     Init sdk_ret srcclk w = Returned InvalidArgument w' ->
     w' = w /\
     (srcclk = 0 \/
      usart_base (config_ (self w)) = nullptr \/
      baud_rate (config_ (self w)) = 0 \/
      dma_base (config_ (self w)) = nullptr)).
Proof.
  split.
  - intro H. split; [apply Init_invalid; exact H | apply new_calls_same].
  - intros w' Hrun.
    destruct (config_valid_dec srcclk (config_ (self w))) as [Hv | Hbad].
    + rewrite (Init_eq sdk_ret srcclk w Hv) in Hrun. cbv zeta in Hrun.
      destruct (negb (status_t_eqb _ kStatus_Success)) in Hrun;
        [discriminate|].
      destruct (negb (status_t_eqb _ kStatus_Success)) in Hrun; discriminate.
    + rewrite (Init_invalid sdk_ret srcclk w Hbad) in Hrun.
      injection Hrun as <-. split; [reflexivity | exact Hbad].
Qed.

(** Each rejecting condition on its own, the other three fields being good. *)
Lemma Init_rejects_invalid_witness :
  (Init sdk_ok 0 (constructed demo_config)
   = Returned InvalidArgument (constructed demo_config) /\
   new_calls (constructed demo_config) (constructed demo_config) = []) /\
  (Init sdk_ok demo_srcclk (constructed config_without_usart)
   = Returned InvalidArgument (constructed config_without_usart) /\
   new_calls (constructed config_without_usart)
     (constructed config_without_usart) = []) /\
  (Init sdk_ok demo_srcclk (constructed config_without_baud)
   = Returned InvalidArgument (constructed config_without_baud) /\
   new_calls (constructed config_without_baud)
     (constructed config_without_baud) = []) /\
  (Init sdk_ok demo_srcclk (constructed config_without_dma)
   = Returned InvalidArgument (constructed config_without_dma) /\
   new_calls (constructed config_without_dma)
     (constructed config_without_dma) = []).
Proof.
  split; [|split; [|split]].
  - apply (proj1 (Init_rejects_invalid sdk_ok 0 (constructed demo_config))).
    left. reflexivity.
  - apply (proj1 (Init_rejects_invalid sdk_ok demo_srcclk
                    (constructed config_without_usart))).
    right. left. reflexivity.
  - apply (proj1 (Init_rejects_invalid sdk_ok demo_srcclk
                    (constructed config_without_baud))).
    right. right. left. reflexivity.
  - apply (proj1 (Init_rejects_invalid sdk_ok demo_srcclk
                    (constructed config_without_dma))).
    right. right. right. reflexivity.
Defined.

(** A successful [Init] sets the initialized flag; any other outcome leaves
    the driver object as it was. *)
Lemma Init_initialized (sdk_ret : Vendor) (srcclk : Z) (w w' : World) (st : Status) :
  Init sdk_ret srcclk w = Returned st w' ->
  config_ (self w') = config_ (self w) /\
  (st = OkStatus -> initialized_ (self w') = true) /\
  (st <> OkStatus -> self w' = self w).
Proof.
  intro Hrun.
  destruct (config_valid_dec srcclk (config_ (self w))) as [Hv | Hbad].
  2:{ rewrite (Init_invalid sdk_ret srcclk w Hbad) in Hrun.
      injection Hrun as <- <-. repeat split; congruence. }
  rewrite (Init_eq sdk_ret srcclk w Hv) in Hrun. cbv zeta in Hrun.
  destruct (negb (status_t_eqb _ kStatus_Success)) in Hrun.
  { injection Hrun as <- <-. repeat split; congruence. }
  destruct (negb (status_t_eqb _ kStatus_Success)) in Hrun.
  { injection Hrun as <- <-. repeat split; congruence. }
  injection Hrun as <- <-. repeat split; congruence.
Qed.

(** C6.  Destroying an instance whose initialized flag is unset does nothing
    (the world, call log included, is unchanged: no channel is disabled, the
    serial engine is not deinitialized); destroying one whose flag is set
    makes exactly the calls of [Deinit].  So an instance on which [Init]
    succeeded is torn down when destroyed, and one on which [Init] was never
    called, or failed, is not. *)
Theorem dtor_tears_down_iff_initialized (sdk_ret : Vendor) (w : World) :
  (initialized_ (self w) = false ->
   UartDmaStreamMcuxpresso_dtor w = Returned tt w) /\
  (initialized_ (self w) = true ->
   UartDmaStreamMcuxpresso_dtor w = Deinit w /\
   Deinit w = Returned tt (logged (teardown_calls (config_ (self w))) w)) /\
  (forall srcclk w',
     Init sdk_ret srcclk w = Returned OkStatus w' ->
     UartDmaStreamMcuxpresso_dtor w'
     = Returned tt (logged (teardown_calls (config_ (self w))) w')) /\
  (forall srcclk st w',
     initialized_ (self w) = false ->
     Init sdk_ret srcclk w = Returned st w' ->
     st <> OkStatus ->
     UartDmaStreamMcuxpresso_dtor w' = Returned tt w').
Proof.
  assert (Hoff : forall v, initialized_ (self v) = false ->
                           UartDmaStreamMcuxpresso_dtor v = Returned tt v).
  { intros v Hv. unfold UartDmaStreamMcuxpresso_dtor, bind, get_initialized.
    rewrite Hv. reflexivity. }
  assert (Hon : forall v, initialized_ (self v) = true ->
                          UartDmaStreamMcuxpresso_dtor v = Deinit v).
  { intros v Hv. unfold UartDmaStreamMcuxpresso_dtor, bind, get_initialized.
    rewrite Hv. reflexivity. }
  split; [apply Hoff|]. split; [|split].
  - intro Hv. split; [apply Hon; exact Hv | apply Deinit_eq].
  - intros srcclk w' Hrun.
    destruct (Init_initialized sdk_ret srcclk w w' OkStatus Hrun) as (Hc & Hi & _).
    rewrite (Hon w' (Hi eq_refl)), Deinit_eq, Hc. reflexivity.
  - intros srcclk st w' Hv Hrun Hst.
    destruct (Init_initialized sdk_ret srcclk w w' st Hrun) as (_ & _ & Hs).
    apply Hoff. rewrite (Hs Hst). exact Hv.
Qed.

(** On a fresh instance: destroyed at once, nothing happens; destroyed after
    a successful [Init], the teardown calls are made. *)
Lemma dtor_tears_down_iff_initialized_witness :
  let w := constructed demo_config in
  let w_ok :=
    with_initialized true
      (logged (configure_calls sdk_ok demo_config demo_srcclk kStatus_Success
               ++ enable_calls demo_config
               ++ [USART_TransferCreateHandleDMA (usart_base demo_config)
                     kStatus_Success]) w) in
  UartDmaStreamMcuxpresso_dtor w = Returned tt w /\
  UartDmaStreamMcuxpresso_dtor w_ok
  = Returned tt (logged (teardown_calls demo_config) w_ok).
Proof.
  cbv zeta.
  destruct (dtor_tears_down_iff_initialized sdk_ok (constructed demo_config))
    as (Hoff & _ & Hok & _).
  split.
  - apply Hoff. reflexivity.
  - apply (Hok demo_srcclk). reflexivity.
Defined.

(** Destroying a fresh instance, one initialized with success, and one whose
    initialization failed at the binding step. *)
Example dtor_never_initialized :
  UartDmaStreamMcuxpresso_dtor (constructed demo_config)
  = Returned tt (constructed demo_config).
Proof. reflexivity. Qed.

Example dtor_after_Init_ok :
  match Init sdk_ok demo_srcclk (constructed demo_config) with
  | Returned OkStatus w' =>
      match UartDmaStreamMcuxpresso_dtor w' with
      | Returned _ w'' => new_calls w' w'' = teardown_calls demo_config
      | _ => False
      end
  | _ => False
  end.
Proof. vm_compute. reflexivity. Qed.

Example dtor_after_Init_failed :
  match Init sdk_bind_fails demo_srcclk (constructed demo_config) with
  | Returned Internal w' =>
      UartDmaStreamMcuxpresso_dtor w' = Returned tt w'
  | _ => False
  end.
Proof. vm_compute. reflexivity. Qed.

(** ** The read stub *)

(** C8.  For every destination span, [DoRead] returns an OK status whose
    reported size is the length of the span, and leaves the world as it found
    it: memory (the destination bytes included) is not written and no call
    reaches the SDK. *)
Theorem DoRead_reports_length (data : ByteSpan) (w : World) :
  exists r w',
    DoRead data w = Returned r w' /\
    sws_status r = OkStatus /\
    sws_size r = size_bytes data /\
    w' = w /\
    memory w' = memory w /\
    new_calls w w' = [] /\
    sent_transfers (new_calls w w') = [].
Proof.
  exists (StatusWithSize_of_size (size_bytes data)), w.
  rewrite new_calls_same. repeat split.
Qed.

(** ** Writing without initialization *)

Section InitializedFlag.
Variable kMax : Z.
Variable v : bool.

Lemma TriggerWriteDma_flag (w : World) :
  TriggerWriteDma kMax (with_initialized v w)
  = Outcome_map (with_initialized v) (TriggerWriteDma kMax w).
Proof. rewrite !TriggerWriteDma_eq. reflexivity. Qed.

(** The TxIdle branch of the callback in one step. *)
Lemma TxRxCompletionCallback_TxIdle_eq (w : World) :
  TxRxCompletionCallback kMax kStatus_USART_TxIdle w
  = let w1 := with_self
                (with_tx_data
                   (fun t => set_tx_idx
                               (size_t_add (tx_idx t) (dataSize (transfer t))) t))
                w in
    let tx := tx_data_ (self w1) in
    if tx_idx tx =? size_bytes (buffer tx) then
      Returned tt (with_self (with_tx_data (set_notification true)) w1)
    else if tx_idx tx <? size_bytes (buffer tx) then
      TriggerWriteDma kMax w1
    else Aborted w1.
Proof.
  unfold TxRxCompletionCallback. cbn [status_t_eqb].
  unfold bind at 1, modify_tx_data at 1. unfold bind at 1, get_tx_data.
  cbv zeta.
  match goal with
  | |- context [if ?c then _ else _] => destruct c
  end; [reflexivity|].
  unfold bind, PW_CHECK_INT_LT.
  match goal with
  | |- context [if ?c then _ else _] => destruct c
  end; reflexivity.
Qed.

Lemma TxRxCompletionCallback_flag (w : World) :
  TxRxCompletionCallback kMax kStatus_USART_TxIdle (with_initialized v w)
  = Outcome_map (with_initialized v)
      (TxRxCompletionCallback kMax kStatus_USART_TxIdle w).
Proof.
  rewrite !TxRxCompletionCallback_TxIdle_eq. cbv zeta.
  set (w1 := with_self _ w).
  change (with_self
            (with_tx_data
               (fun t => set_tx_idx
                           (size_t_add (tx_idx t) (dataSize (transfer t))) t))
            (with_initialized v w))
    with (with_initialized v w1).
  change (tx_data_ (self (with_initialized v w1))) with (tx_data_ (self w1)).
  destruct (tx_idx (tx_data_ (self w1))
            =? size_bytes (buffer (tx_data_ (self w1)))); [reflexivity|].
  destruct (tx_idx (tx_data_ (self w1))
            <? size_bytes (buffer (tx_data_ (self w1)))); [|reflexivity].
  apply TriggerWriteDma_flag.
Qed.

Lemma usart_tx_dma_complete_flag (w : World) :
  usart_tx_dma_complete kMax (with_initialized v w)
  = Outcome_map (with_initialized v) (usart_tx_dma_complete kMax w).
Proof.
  unfold usart_tx_dma_complete.
  change (tx_in_flight (with_initialized v w)) with (tx_in_flight w).
  destruct (tx_in_flight w); [|reflexivity].
  apply (TxRxCompletionCallback_flag
           {| self := self w; calls := calls w;
              tx_in_flight := None; memory := memory w |}).
Qed.

Lemma notification_acquire_flag (fuel : nat) :
  forall w : World,
    notification_acquire kMax fuel (with_initialized v w)
    = Outcome_map (with_initialized v) (notification_acquire kMax fuel w).
Proof.
  induction fuel as [|fuel IH]; intro w; cbn [notification_acquire];
    change (notification (tx_data_ (self (with_initialized v w))))
      with (notification (tx_data_ (self w)));
    destruct (notification (tx_data_ (self w))); try reflexivity.
  change (tx_in_flight (with_initialized v w)) with (tx_in_flight w).
  destruct (tx_in_flight w); [|reflexivity].
  unfold bind. rewrite usart_tx_dma_complete_flag.
  destruct (usart_tx_dma_complete kMax w) as [[] w1 | w1 | w1];
    cbn [Outcome_map]; [apply IH | reflexivity | reflexivity].
Qed.

(** [DoWrite] runs the same way whatever the initialized flag holds. *)
Lemma DoWrite_flag (fuel : nat) (b : ConstByteSpan) (w : World) :
  DoWrite kMax fuel b (with_initialized v w)
  = Outcome_map (with_initialized v) (DoWrite kMax fuel b w).
Proof.
  unfold DoWrite.
  destruct (size_bytes b =? 0); [reflexivity|].
  unfold bind, busy_exchange, modify_tx_data, busy_store, ret.
  change (busy (tx_data_ (self (with_initialized v w))))
    with (busy (tx_data_ (self w))).
  destruct (busy (tx_data_ (self w))); [reflexivity|].
  set (w1 := with_self (with_tx_data (set_tx_idx 0))
               (with_self (with_tx_data (set_buffer b))
                  (with_self (with_tx_data (set_busy true)) w))).
  change (with_self (with_tx_data (set_tx_idx 0))
            (with_self (with_tx_data (set_buffer b))
               (with_self (with_tx_data (set_busy true))
                  (with_initialized v w))))
    with (with_initialized v w1).
  rewrite TriggerWriteDma_flag.
  destruct (TriggerWriteDma kMax w1) as [[] w2 | w2 | w2];
    cbn [Outcome_map]; [|reflexivity|reflexivity].
  rewrite notification_acquire_flag.
  destruct (notification_acquire kMax fuel w2) as [[] w3 | w3 | w3];
    cbn [Outcome_map]; reflexivity.
Qed.

End InitializedFlag.

(** C10.  [DoWrite] does not look at the initialized flag: run on the same
    world with the flag forced to either value it produces the same outcome
    (status, call log, transmit record), only the flag differing.  The
    statuses it returns are InvalidArgument (exactly for an empty buffer),
    FailedPrecondition (exactly for a non-empty buffer while busy) and
    success.  In particular on an idle instance that was never initialized a
    non-empty write claims the busy flag, stores the buffer, zeroes the cursor
    and hands the first chunk to the SDK, and goes on to return success. *)
Theorem DoWrite_ignores_initialized (kMax : Z) (fuel : nat) (b : ConstByteSpan)
    (w : World) :
  (forall v,
     DoWrite kMax fuel b (with_initialized v w)
     = Outcome_map (with_initialized v) (DoWrite kMax fuel b w)) /\
  (forall st w',
     DoWrite kMax fuel b w = Returned st w' ->
     (st = InvalidArgument /\ size_bytes b = 0) \/
     (st = FailedPrecondition /\ size_bytes b <> 0 /\
      busy (tx_data_ (self w)) = true) \/
     (st = OkStatus /\ size_bytes b <> 0 /\
      busy (tx_data_ (self w)) = false)) /\
  (initialized_ (self w) = false ->
   idle w ->
   chunkable kMax b ->
   (exists w1,
      DoWrite kMax 0 b w = Blocked w1 /\
      initialized_ (self w1) = false /\
      busy (tx_data_ (self w1)) = true /\
      buffer (tx_data_ (self w1)) = b /\
      tx_idx (tx_data_ (self w1)) = 0 /\
      new_calls w w1
      = [USART_TransferSendDMA (usart_base (config_ (self w)))
           (chunk_at kMax b 0)]) /\
   (exists fuel' w2,
      DoWrite kMax fuel' b w = Returned OkStatus w2 /\
      initialized_ (self w2) = false)).
Proof.
  split; [intro v; apply DoWrite_flag|]. split.
  - intros st w' H. unfold DoWrite in H.
    destruct (Z.eqb_spec (size_bytes b) 0) as [E|E].
    { left. injection H as <- _. split; [reflexivity | exact E]. }
    right.
    apply bind_Returned in H. destruct H as (was_busy & w1 & Hx & H).
    unfold busy_exchange in Hx. injection Hx as Hx _.
    destruct was_busy.
    { left. injection H as <- _. repeat split; congruence. }
    right.
    apply bind_Returned in H. destruct H as (_ & w2 & _ & H).
    apply bind_Returned in H. destruct H as (_ & w3 & _ & H).
    apply bind_Returned in H. destruct H as (_ & w4 & _ & H).
    apply bind_Returned in H. destruct H as (_ & w5 & _ & H).
    apply bind_Returned in H. destruct H as (_ & w6 & _ & H).
    injection H as <- _. repeat split; congruence.
  - intros Hflag Hidle Hb.
    pose proof (chunk_count_pos kMax b Hb) as HN.
    split.
    + eexists. rewrite (DoWrite_run kMax w b Hb Hidle).
      destruct (Nat.ltb_spec 0 (chunk_count kMax (size_bytes b))); [|lia].
      split; [reflexivity|].
      cbn [writing self initialized_ tx_data_ busy buffer tx_idx seq map].
      repeat split; try assumption.
      apply new_calls_app. reflexivity.
    + exists (chunk_count kMax (size_bytes b)). eexists.
      rewrite (DoWrite_run kMax w b Hb Hidle), Nat.ltb_irrefl.
      split; [reflexivity | exact Hflag].
Qed.

(** A fresh, never initialized instance accepts the 2.5-chunk write. *)
Lemma DoWrite_ignores_initialized_witness :
  let w := constructed demo_config in
  (exists w1,
     DoWrite demo_max_transfer 0 demo_buffer w = Blocked w1 /\
     initialized_ (self w1) = false /\
     busy (tx_data_ (self w1)) = true /\
     buffer (tx_data_ (self w1)) = demo_buffer /\
     tx_idx (tx_data_ (self w1)) = 0 /\
     new_calls w w1
     = [USART_TransferSendDMA (usart_base (config_ (self w)))
          (chunk_at demo_max_transfer demo_buffer 0)]) /\
  (exists fuel' w2,
     DoWrite demo_max_transfer fuel' demo_buffer w = Returned OkStatus w2 /\
     initialized_ (self w2) = false).
Proof.
  cbv zeta.
  destruct (DoWrite_ignores_initialized demo_max_transfer 0 demo_buffer
              (constructed demo_config)) as (_ & _ & H).
  apply H.
  - reflexivity.
  - unfold idle. repeat split; reflexivity.
  - unfold chunkable. vm_compute. repeat split; discriminate.
Defined.

(** The same write on the instance before and after a successful [Init]
    hands the same transfers to the SDK. *)
Example DoWrite_same_with_and_without_Init :
  match DoWrite demo_max_transfer 3 demo_buffer (constructed demo_config),
        DoWrite demo_max_transfer 3 demo_buffer
          (with_initialized true (constructed demo_config)) with
  | Returned st1 w1, Returned st2 w2 =>
      st1 = OkStatus /\ st2 = OkStatus /\
      sent_transfers (calls w1) = sent_transfers (calls w2) /\
      tx_data_ (self w1) = tx_data_ (self w2)
  | _, _ => False
  end.
Proof. vm_compute. repeat split. Qed.

(** ** The idle state is the rest state of the driver *)

(** A fresh instance is idle, and [Init], [DoRead], the destructor and every
    [DoWrite] that returns leave an idle instance idle: writes always start
    from an idle instance unless another write is under way. *)
Lemma idle_constructed (cfg : Config) : idle (constructed cfg).
Proof. unfold idle. repeat split; reflexivity. Qed.

Lemma idle_logged (l : list hw_call) (w : World) : idle w -> idle (logged l w).
Proof. intro H. exact H. Qed.

Lemma idle_Init (sdk_ret : Vendor) (srcclk : Z) (w w' : World) (st : Status) :
  idle w -> Init sdk_ret srcclk w = Returned st w' -> idle w'.
Proof.
  intros Hidle Hrun.
  destruct (config_valid_dec srcclk (config_ (self w))) as [Hv | Hbad].
  2:{ rewrite (Init_invalid sdk_ret srcclk w Hbad) in Hrun.
      injection Hrun as _ <-. exact Hidle. }
  rewrite (Init_eq sdk_ret srcclk w Hv) in Hrun. cbv zeta in Hrun.
  destruct (negb (status_t_eqb _ kStatus_Success)) in Hrun.
  { injection Hrun as _ <-. exact Hidle. }
  destruct (negb (status_t_eqb _ kStatus_Success)) in Hrun;
    injection Hrun as _ <-; exact Hidle.
Qed.

Lemma idle_DoWrite (kMax : Z) (fuel : nat) (b : ConstByteSpan) (w w' : World)
    (st : Status) :
  0 < kMax -> size_bytes b + kMax <= size_t_modulus -> 0 <= size_bytes b ->
  idle w -> DoWrite kMax fuel b w = Returned st w' -> idle w'.
Proof.
  intros Hk Hw Hl Hidle Hrun.
  destruct (Z.eq_dec (size_bytes b) 0) as [E|E].
  - unfold DoWrite in Hrun. rewrite E in Hrun.
    injection Hrun as _ <-. exact Hidle.
  - assert (Hb : chunkable kMax b) by (unfold chunkable; lia).
    rewrite (DoWrite_run kMax w b Hb Hidle) in Hrun.
    destruct (fuel <? chunk_count kMax (size_bytes b))%nat; [discriminate|].
    injection Hrun as _ <-. unfold idle. repeat split; reflexivity.
Qed.

(** ** Outside the range of [chunkable] *)

(** For a span longer than 2^32 - max-chunk bytes (no object of that size
    exists on the target) the sum in [TriggerWriteDma] wraps around for the
    last chunk, the comparison fails and a full chunk is requested although
    fewer bytes remain: the theorems on chunking need [chunkable]. *)
Example TriggerWriteDma_sum_wraps :
  let b := {| span_data := 0; size_bytes := 4294967295 |} in
  let w := {| self :=
                {| config_ := demo_config;
                   initialized_ := true;
                   tx_data_ :=
                     {| buffer := b;
                        tx_idx := 4294966272;
                        transfer := {| txData := 0; dataSize := 0 |};
                        busy := true;
                        notification := false |} |};
              calls := [];
              tx_in_flight := None;
              memory := fun _ => 0 |} in
  size_bytes b - tx_idx (tx_data_ (self w)) = 1023 /\
  match TriggerWriteDma demo_max_transfer w with
  | Returned _ w' => dataSize (transfer (tx_data_ (self w'))) = 1024
  | _ => False
  end.
Proof. vm_compute. split; reflexivity. Qed.

(* ================================================================== *)
(** * Further properties of the lifecycle *)

Lemma enable_then_bind_enabled (sdk_ret : Vendor) (cfg : Config) (srcclk : Z)
    (r1 r2 : status_t) (log : list hw_call) :
  let log' := log ++ configure_calls sdk_ret cfg srcclk r1 ++ enable_calls cfg
                  ++ [USART_TransferCreateHandleDMA (usart_base cfg) r2] in
  dma_channel_enabled log' (dma_base cfg) (tx_dma_ch cfg) = true /\
  dma_channel_enabled log' (dma_base cfg) (rx_dma_ch cfg) = true /\
  usart_enabled log' (usart_base cfg) = true.
Proof.
  cbv zeta.
  unfold dma_channel_enabled, usart_enabled, configure_calls, enable_calls.
  rewrite !fold_left_app. cbn [fold_left app].
  rewrite !Z.eqb_refl. cbn [andb].
  repeat split.
  destruct (rx_dma_ch cfg =? tx_dma_ch cfg); reflexivity.
Qed.

(** [Init] returns OK exactly when it accepts the configuration and both SDK
    calls whose status it inspects answer success.  It has then made, in this
    order, the configuration calls, the channel set-up inside the interrupt
    lock and the binding call, nothing else; USART_Init was given the
    configured baud rate and parity with transmitter and receiver on; the
    initialized flag is set, and configuration and transmit record are as
    before. *)
Theorem Init_ok_iff (sdk_ret : Vendor) (srcclk : Z) (w w' : World) :
  let cfg := config_ (self w) in
  let c := init_usart_config sdk_ret cfg in
  Init sdk_ret srcclk w = Returned OkStatus w' <->
  (config_valid srcclk cfg /\
   USART_Init_ret sdk_ret (calls w ++ [USART_GetDefaultConfig])
     (usart_base cfg) c srcclk = kStatus_Success /\
   USART_TransferCreateHandleDMA_ret sdk_ret
     (calls w ++ configure_calls sdk_ret cfg srcclk kStatus_Success
              ++ enable_calls cfg) (usart_base cfg) = kStatus_Success /\
   w' = with_initialized true
          (logged
             ([ USART_GetDefaultConfig;
                USART_Init (usart_base cfg)
                  {| baudRate_Bps := baud_rate cfg;
                     parityMode := parity cfg;
                     enableTx := true;
                     enableRx := true;
                     usart_other := usart_other (default_config sdk_ret) |}
                  srcclk kStatus_Success ]
              ++ enable_calls cfg
              ++ [USART_TransferCreateHandleDMA (usart_base cfg)
                    kStatus_Success]) w)).
Proof.
  cbv zeta. split.
  - intro Hrun.
    destruct (config_valid_dec srcclk (config_ (self w))) as [Hv | Hbad].
    2:{ rewrite (Init_invalid sdk_ret srcclk w Hbad) in Hrun. discriminate. }
    split; [exact Hv|].
    rewrite (Init_eq sdk_ret srcclk w Hv) in Hrun. cbv zeta in Hrun.
    destruct (status_t_eqb _ kStatus_Success) eqn:E1 in Hrun;
      cbn [negb] in Hrun; [|discriminate].
    apply status_t_eqb_eq in E1. rewrite E1 in Hrun.
    destruct (status_t_eqb _ kStatus_Success) eqn:E2 in Hrun;
      cbn [negb] in Hrun; [|discriminate].
    apply status_t_eqb_eq in E2. rewrite E2 in Hrun.
    split; [exact E1|]. split; [exact E2|].
    injection Hrun as <-. reflexivity.
  - intros (Hv & E1 & E2 & ->).
    rewrite (Init_eq sdk_ret srcclk w Hv). cbv zeta.
    rewrite E1. cbn [status_t_eqb negb]. rewrite E2. reflexivity.
Qed.

Lemma Init_ok_iff_witness :
  Init sdk_ok demo_srcclk (constructed demo_config)
  = Returned OkStatus
      (with_initialized true
         (logged
            ([ USART_GetDefaultConfig;
               USART_Init (usart_base demo_config)
                 {| baudRate_Bps := baud_rate demo_config;
                    parityMode := parity demo_config;
                    enableTx := true;
                    enableRx := true;
                    usart_other := usart_other (default_config sdk_ok) |}
                 demo_srcclk kStatus_Success ]
             ++ enable_calls demo_config
             ++ [USART_TransferCreateHandleDMA (usart_base demo_config)
                   kStatus_Success]) (constructed demo_config))).
Proof.
  apply (proj2 (Init_ok_iff sdk_ok demo_srcclk (constructed demo_config) _)).
  split; [|split; [|split]]; try reflexivity.
  unfold config_valid. repeat split; discriminate.
Defined.

(** When USART_Init does not answer success, [Init] returns Internal at once:
    the two configuration calls are all it made (no lock, no input-mux or DMA
    call, no binding and no teardown), and the driver object is unchanged. *)
Theorem Init_usart_failure_stops (sdk_ret : Vendor) (srcclk : Z)
    (w w' : World) (st : Status) :
  Init sdk_ret srcclk w = Returned st w' ->
  (exists base c clk r,
     In (USART_Init base c clk r) (new_calls w w') /\ r <> kStatus_Success) ->
  let cfg := config_ (self w) in
  st = Internal /\
  (exists r,
     r <> kStatus_Success /\
     new_calls w w'
     = [ USART_GetDefaultConfig;
         USART_Init (usart_base cfg) (init_usart_config sdk_ret cfg) srcclk r ]) /\
  self w' = self w /\
  dma_channel_enabled (calls w') (dma_base cfg) (tx_dma_ch cfg)
  = dma_channel_enabled (calls w) (dma_base cfg) (tx_dma_ch cfg) /\
  dma_channel_enabled (calls w') (dma_base cfg) (rx_dma_ch cfg)
  = dma_channel_enabled (calls w) (dma_base cfg) (rx_dma_ch cfg).
Proof.
  intros Hrun (base & c & clk & r & Hin & Hr). cbv zeta.
  destruct (config_valid_dec srcclk (config_ (self w))) as [Hv | Hbad].
  2:{ rewrite (Init_invalid sdk_ret srcclk w Hbad) in Hrun.
      injection Hrun as _ <-. rewrite new_calls_same in Hin. destruct Hin. }
  rewrite (Init_eq sdk_ret srcclk w Hv) in Hrun. cbv zeta in Hrun.
  set (cfg := config_ (self w)) in *.
  set (r1 := USART_Init_ret sdk_ret _ _ _ _) in Hrun.
  destruct (status_t_eqb r1 kStatus_Success) eqn:E1; cbn [negb] in Hrun.
  - exfalso. apply status_t_eqb_eq in E1.
    set (r2 := USART_TransferCreateHandleDMA_ret sdk_ret _ _) in Hrun.
    assert (Hcalls : exists tail,
               new_calls w w'
               = configure_calls sdk_ret cfg srcclk r1 ++ enable_calls cfg ++
                 USART_TransferCreateHandleDMA (usart_base cfg) r2 :: tail /\
               (tail = [] \/ tail = teardown_calls cfg)).
    { destruct (negb (status_t_eqb r2 kStatus_Success)).
      - exists (teardown_calls cfg). split; [|right; reflexivity].
        apply new_calls_app.
        assert (Hw' : w' = logged (configure_calls sdk_ret cfg srcclk r1 ++
                                   enable_calls cfg ++
                                   USART_TransferCreateHandleDMA (usart_base cfg) r2
                                   :: teardown_calls cfg) w) by congruence.
        rewrite Hw'. reflexivity.
      - exists []. split; [|left; reflexivity].
        apply new_calls_app.
        assert (Hw' : w' = with_initialized true
                             (logged (configure_calls sdk_ret cfg srcclk r1 ++
                                      enable_calls cfg ++
                                      [USART_TransferCreateHandleDMA
                                         (usart_base cfg) r2]) w))
          by congruence.
        rewrite Hw'. reflexivity. }
    destruct Hcalls as (tail & Hnew & Htail). rewrite Hnew in Hin.
    cbn in Hin.
    destruct Hin as [Hin | [Hin | Hin]]; [discriminate Hin | |].
    + injection Hin as _ _ _ Hr1. congruence.
    + repeat (destruct Hin as [Hin | Hin]; [discriminate Hin|]).
      destruct Htail as [-> | ->]; cbn in Hin.
      * destruct Hin.
      * repeat (destruct Hin as [Hin | Hin]; [discriminate Hin|]).
        destruct Hin.
  - apply status_t_eqb_neq in E1.
    assert (Hst : st = Internal) by congruence.
    assert (Hw' : w' = logged (configure_calls sdk_ret cfg srcclk r1) w)
      by congruence.
    clear Hrun. subst st w'.
    split; [reflexivity|]. split.
    { exists r1. split; [exact E1|]. apply new_calls_app. reflexivity. }
    split; [reflexivity|].
    unfold logged, dma_channel_enabled, configure_calls. cbn [calls].
    rewrite !fold_left_app. cbn [fold_left]. split; reflexivity.
Qed.

Lemma Init_usart_failure_stops_witness :
  let w := constructed demo_config in
  let w' := logged (configure_calls sdk_usart_init_fails demo_config demo_srcclk
                      kStatus_USART_BaudrateNotSupport) w in
  Internal = Internal /\
  (exists r,
     r <> kStatus_Success /\
     new_calls w w'
     = [ USART_GetDefaultConfig;
         USART_Init (usart_base demo_config)
           (init_usart_config sdk_usart_init_fails demo_config) demo_srcclk r ]) /\
  self w' = self w /\
  dma_channel_enabled (calls w') (dma_base demo_config) (tx_dma_ch demo_config)
  = dma_channel_enabled (calls w) (dma_base demo_config) (tx_dma_ch demo_config) /\
  dma_channel_enabled (calls w') (dma_base demo_config) (rx_dma_ch demo_config)
  = dma_channel_enabled (calls w) (dma_base demo_config) (rx_dma_ch demo_config).
Proof.
  apply (Init_usart_failure_stops sdk_usart_init_fails demo_srcclk
           (constructed demo_config)).
  - reflexivity.
  - exists (usart_base demo_config),
      (init_usart_config sdk_usart_init_fails demo_config), demo_srcclk,
      kStatus_USART_BaudrateNotSupport.
    split; [cbn; right; left; reflexivity | discriminate].
Defined.

(** [Init] never touches the transmit record, a transfer in flight or memory,
    keeps the configuration, only adds to the call log, and never clears the
    initialized flag: the flag is set afterwards exactly when it was set
    before or [Init] returned OK.  In particular a re-initialization that
    fails leaves the flag of an initialized instance set. *)
Theorem Init_frame (sdk_ret : Vendor) (srcclk : Z) (w w' : World) (st : Status) :
  Init sdk_ret srcclk w = Returned st w' ->
  st <> FailedPrecondition /\
  config_ (self w') = config_ (self w) /\
  tx_data_ (self w') = tx_data_ (self w) /\
  tx_in_flight w' = tx_in_flight w /\
  memory w' = memory w /\
  (exists l, calls w' = calls w ++ l) /\
  (initialized_ (self w') = true <->
   initialized_ (self w) = true \/ st = OkStatus).
Proof.
  intro Hrun.
  destruct (config_valid_dec srcclk (config_ (self w))) as [Hv | Hbad].
  2:{ rewrite (Init_invalid sdk_ret srcclk w Hbad) in Hrun.
      injection Hrun as <- <-.
      repeat split; try reflexivity; try discriminate.
      - exists []. rewrite app_nil_r. reflexivity.
      - intro H. left. exact H.
      - intros [H | H]; [exact H | discriminate H]. }
  rewrite (Init_eq sdk_ret srcclk w Hv) in Hrun. cbv zeta in Hrun.
  destruct (negb (status_t_eqb _ kStatus_Success)) in Hrun.
  { injection Hrun as <- <-.
    repeat split; try reflexivity; try discriminate.
    - eexists. reflexivity.
    - intro H. left. exact H.
    - intros [H | H]; [exact H | discriminate H]. }
  destruct (negb (status_t_eqb _ kStatus_Success)) in Hrun.
  { injection Hrun as <- <-.
    repeat split; try reflexivity; try discriminate.
    - eexists. reflexivity.
    - intro H. left. exact H.
    - intros [H | H]; [exact H | discriminate H]. }
  injection Hrun as <- <-.
  repeat split; try reflexivity; try discriminate.
  - eexists. reflexivity.
  - intro H. right. reflexivity.
Qed.

(** An initialized instance whose second [Init] fails at the binding step
    keeps its flag. *)
Lemma Init_frame_witness :
  let w := with_initialized true (constructed demo_config) in
  let w' := logged (configure_calls sdk_bind_fails demo_config demo_srcclk
                      kStatus_Success
                    ++ enable_calls demo_config
                    ++ USART_TransferCreateHandleDMA (usart_base demo_config)
                         kStatus_InvalidArgument
                       :: teardown_calls demo_config) w in
  Internal <> FailedPrecondition /\
  config_ (self w') = config_ (self w) /\
  tx_data_ (self w') = tx_data_ (self w) /\
  tx_in_flight w' = tx_in_flight w /\
  memory w' = memory w /\
  (exists l, calls w' = calls w ++ l) /\
  (initialized_ (self w') = true <->
   initialized_ (self w) = true \/ Internal = OkStatus).
Proof.
  apply (Init_frame sdk_bind_fails demo_srcclk
           (with_initialized true (constructed demo_config))).
  reflexivity.
Defined.

(** ** The interrupt lock *)

Lemma lock_scan_app (l1 l2 : list hw_call) :
  forall held : bool,
    lock_scan held (l1 ++ l2)
    = match lock_scan held l1 with
      | Some held' => lock_scan held' l2
      | None => None
      end.
Proof.
  induction l1 as [|c l1 IH]; intro held; [reflexivity|].
  destruct c; cbn [app lock_scan touches_shared_registers andb];
    destruct held; cbn [negb]; try reflexivity; apply IH.
Qed.

Lemma lock_disciplined_app (l1 l2 : list hw_call) :
  lock_disciplined l1 -> lock_disciplined l2 -> lock_disciplined (l1 ++ l2).
Proof.
  unfold lock_disciplined. intros H1 H2. rewrite lock_scan_app, H1. exact H2.
Qed.

Lemma lock_disciplined_sends (base : Z) (l : list usart_transfer_t) :
  lock_disciplined (map (USART_TransferSendDMA base) l).
Proof. induction l as [|t l IH]; [reflexivity | exact IH]. Qed.

Lemma lock_disciplined_teardown (cfg : Config) :
  lock_disciplined (teardown_calls cfg).
Proof. reflexivity. Qed.

Lemma lock_disciplined_Init (sdk_ret : Vendor) (srcclk : Z) (w : World) :
  lock_disciplined (calls w) ->
  lock_disciplined (calls (Outcome_world (Init sdk_ret srcclk w))).
Proof.
  intro Hw.
  destruct (config_valid_dec srcclk (config_ (self w))) as [Hv | Hbad].
  2:{ rewrite (Init_invalid sdk_ret srcclk w Hbad). exact Hw. }
  rewrite (Init_eq sdk_ret srcclk w Hv). cbv zeta.
  destruct (negb (status_t_eqb _ kStatus_Success));
    [apply lock_disciplined_app; [exact Hw | reflexivity]|].
  destruct (negb (status_t_eqb _ kStatus_Success));
    apply lock_disciplined_app; solve [exact Hw | reflexivity].
Qed.

(** [Init], [Deinit] and the destructor keep the lock discipline on every
    path: on a log in which the interrupt lock was always taken and released
    in turn and every DMA or input-mux call was made with the lock held, they
    add calls of which the same is true, and they return with the lock
    released, also when [Init] fails. *)
Theorem lifecycle_keeps_lock_discipline (sdk_ret : Vendor) (srcclk : Z)
    (w : World) :
  lock_disciplined (calls w) ->
  lock_disciplined (calls (Outcome_world (Init sdk_ret srcclk w))) /\
  lock_disciplined (calls (Outcome_world (Deinit w))) /\
  lock_disciplined (calls (Outcome_world (UartDmaStreamMcuxpresso_dtor w))).
Proof.
  intro Hw. split; [|split].
  - apply lock_disciplined_Init. exact Hw.
  - rewrite Deinit_eq. apply lock_disciplined_app; [exact Hw | reflexivity].
  - unfold UartDmaStreamMcuxpresso_dtor, bind, get_initialized.
    destruct (initialized_ (self w)); cbn [negb]; [|exact Hw].
    rewrite Deinit_eq. apply lock_disciplined_app; [exact Hw | reflexivity].
Qed.

Lemma lifecycle_keeps_lock_discipline_witness :
  lock_disciplined
    (calls (Outcome_world (Init sdk_bind_fails demo_srcclk
                             (constructed demo_config)))) /\
  lock_disciplined (calls (Outcome_world (Deinit (constructed demo_config)))) /\
  lock_disciplined
    (calls (Outcome_world
              (UartDmaStreamMcuxpresso_dtor (constructed demo_config)))).
Proof.
  apply (lifecycle_keeps_lock_discipline sdk_bind_fails demo_srcclk
           (constructed demo_config)).
  reflexivity.
Defined.

(** The checker does reject what the code avoids: a channel enabled outside
    the lock, and a lock that is never released. *)
Example lock_scan_rejects :
  lock_scan false [DMA_EnableChannel 1 2] = None /\
  lock_scan false [interrupt_lock_lock; DMA_EnableChannel 1 2] = Some true /\
  lock_scan false [interrupt_lock_lock; interrupt_lock_lock] = None.
Proof. repeat split. Qed.

(** ** Initialize, then destroy *)

(** After an [Init] that returned OK both DMA channels are enabled and the
    serial engine is on; destroying the instance then makes exactly the
    teardown calls and leaves both channels disabled and the serial engine
    off. *)
Theorem Init_then_dtor_round_trip (sdk_ret : Vendor) (srcclk : Z)
    (w w1 : World) :
  Init sdk_ret srcclk w = Returned OkStatus w1 ->
  let cfg := config_ (self w) in
  (dma_channel_enabled (calls w1) (dma_base cfg) (tx_dma_ch cfg) = true /\
   dma_channel_enabled (calls w1) (dma_base cfg) (rx_dma_ch cfg) = true /\
   usart_enabled (calls w1) (usart_base cfg) = true) /\
  exists w2,
    UartDmaStreamMcuxpresso_dtor w1 = Returned tt w2 /\
    new_calls w1 w2 = teardown_calls cfg /\
    dma_channel_enabled (calls w2) (dma_base cfg) (tx_dma_ch cfg) = false /\
    dma_channel_enabled (calls w2) (dma_base cfg) (rx_dma_ch cfg) = false /\
    usart_enabled (calls w2) (usart_base cfg) = false.
Proof.
  intro Hrun. cbv zeta.
  destruct (config_valid_dec srcclk (config_ (self w))) as [Hv | Hbad].
  2:{ rewrite (Init_invalid sdk_ret srcclk w Hbad) in Hrun. discriminate. }
  rewrite (Init_eq sdk_ret srcclk w Hv) in Hrun. cbv zeta in Hrun.
  set (cfg := config_ (self w)) in *.
  set (r1 := USART_Init_ret sdk_ret _ _ _ _) in Hrun.
  destruct (negb (status_t_eqb r1 kStatus_Success)); [discriminate|].
  set (r2 := USART_TransferCreateHandleDMA_ret sdk_ret _ _) in Hrun.
  destruct (negb (status_t_eqb r2 kStatus_Success)); [discriminate|].
  assert (Hw1 : w1 = with_initialized true
                       (logged (configure_calls sdk_ret cfg srcclk r1 ++
                                enable_calls cfg ++
                                [USART_TransferCreateHandleDMA (usart_base cfg) r2])
                          w)) by congruence.
  clear Hrun.
  subst w1. split.
  - apply (enable_then_bind_enabled sdk_ret cfg srcclk r1 r2 (calls w)).
  - eexists. split; [|split].
    + unfold UartDmaStreamMcuxpresso_dtor, bind, get_initialized.
      cbn [with_initialized with_self self set_initialized initialized_ negb].
      apply Deinit_eq.
    + apply new_calls_app. reflexivity.
    + apply (teardown_disables cfg).
Qed.

Lemma Init_then_dtor_round_trip_witness :
  let w := constructed demo_config in
  let w1 :=
    with_initialized true
      (logged (configure_calls sdk_ok demo_config demo_srcclk kStatus_Success
               ++ enable_calls demo_config
               ++ [USART_TransferCreateHandleDMA (usart_base demo_config)
                     kStatus_Success]) w) in
  (dma_channel_enabled (calls w1) (dma_base demo_config) (tx_dma_ch demo_config)
   = true /\
   dma_channel_enabled (calls w1) (dma_base demo_config) (rx_dma_ch demo_config)
   = true /\
   usart_enabled (calls w1) (usart_base demo_config) = true) /\
  exists w2,
    UartDmaStreamMcuxpresso_dtor w1 = Returned tt w2 /\
    new_calls w1 w2 = teardown_calls demo_config /\
    dma_channel_enabled (calls w2) (dma_base demo_config) (tx_dma_ch demo_config)
    = false /\
    dma_channel_enabled (calls w2) (dma_base demo_config) (rx_dma_ch demo_config)
    = false /\
    usart_enabled (calls w2) (usart_base demo_config) = false.
Proof.
  apply (Init_then_dtor_round_trip sdk_ok demo_srcclk (constructed demo_config)).
  reflexivity.
Defined.

(* ================================================================== *)
(** * Further properties of the write path *)

(** ** What a write calls, in any state *)

Lemma sends_only_refl (w : World) : sends_only w w.
Proof.
  unfold sends_only. repeat split. exists []. rewrite app_nil_r. reflexivity.
Qed.

Lemma sends_only_trans (w1 w2 w3 : World) :
  sends_only w1 w2 -> sends_only w2 w3 -> sends_only w1 w3.
Proof.
  intros (Hc1 & Hi1 & Hm1 & l1 & Hl1) (Hc2 & Hi2 & Hm2 & l2 & Hl2).
  unfold sends_only. repeat split; try congruence.
  exists (l1 ++ l2). rewrite Hl2, Hl1, Hc1, map_app, app_assoc. reflexivity.
Qed.

Lemma sends_only_tx_data (f : UsartDmaTxData -> UsartDmaTxData) (w : World) :
  sends_only w (with_self (with_tx_data f) w).
Proof.
  unfold sends_only. repeat split. exists []. cbn. rewrite app_nil_r. reflexivity.
Qed.

Lemma sends_only_TriggerWriteDma (kMax : Z) (w : World) :
  sends_only w (Outcome_world (TriggerWriteDma kMax w)).
Proof.
  rewrite TriggerWriteDma_eq. cbv zeta. unfold sends_only. cbn.
  repeat split. eexists [_]. reflexivity.
Qed.

Lemma sends_only_callback (kMax : Z) (status : status_t) (w : World) :
  sends_only w (Outcome_world (TxRxCompletionCallback kMax status w)).
Proof.
  destruct (status_t_eqb status kStatus_USART_TxIdle) eqn:E.
  - apply status_t_eqb_eq in E. subst status.
    rewrite TxRxCompletionCallback_TxIdle_eq. cbv zeta.
    set (w1 := with_self _ w).
    assert (H1 : sends_only w w1) by apply sends_only_tx_data.
    destruct (_ =? _).
    + apply (sends_only_trans w w1 _ H1). apply sends_only_tx_data.
    + destruct (_ <? _).
      * apply (sends_only_trans w w1 _ H1). apply sends_only_TriggerWriteDma.
      * exact H1.
  - unfold TxRxCompletionCallback. rewrite E. apply sends_only_refl.
Qed.

Lemma sends_only_complete (kMax : Z) (w : World) :
  sends_only w (Outcome_world (usart_tx_dma_complete kMax w)).
Proof.
  unfold usart_tx_dma_complete. destruct (tx_in_flight w).
  - set (w0 := {| self := self w; calls := calls w;
                  tx_in_flight := None; memory := memory w |}).
    apply (sends_only_trans w w0).
    + unfold sends_only. repeat split. exists []. cbn.
      rewrite app_nil_r. reflexivity.
    + apply sends_only_callback.
  - apply sends_only_refl.
Qed.

Lemma sends_only_acquire (kMax : Z) (fuel : nat) :
  forall w : World,
    sends_only w (Outcome_world (notification_acquire kMax fuel w)).
Proof.
  induction fuel as [|fuel IH]; intro w; cbn [notification_acquire];
    destruct (notification (tx_data_ (self w)));
    try apply sends_only_tx_data; try apply sends_only_refl.
  destruct (tx_in_flight w) eqn:Hfl; [|apply sends_only_refl].
  unfold bind.
  pose proof (sends_only_complete kMax w) as Hc.
  destruct (usart_tx_dma_complete kMax w) as [[] w1 | w1 | w1];
    cbn [Outcome_world] in Hc |- *; try exact Hc.
  apply (sends_only_trans w w1 _ Hc). apply IH.
Qed.

Lemma sends_only_DoWrite (kMax : Z) (fuel : nat) (b : ConstByteSpan) (w : World) :
  sends_only w (Outcome_world (DoWrite kMax fuel b w)).
Proof.
  unfold DoWrite.
  destruct (size_bytes b =? 0); [apply sends_only_refl|].
  unfold bind at 1, busy_exchange.
  set (w1 := with_self (with_tx_data (set_busy true)) w).
  assert (H1 : sends_only w w1) by apply sends_only_tx_data.
  destruct (busy (tx_data_ (self w))); [exact H1|].
  unfold bind at 1, modify_tx_data at 1.
  set (w2 := with_self (with_tx_data (set_buffer b)) w1).
  assert (H2 : sends_only w w2)
    by (apply (sends_only_trans w w1 _ H1); apply sends_only_tx_data).
  unfold bind at 1, modify_tx_data at 1.
  set (w3 := with_self (with_tx_data (set_tx_idx 0)) w2).
  assert (H3 : sends_only w w3)
    by (apply (sends_only_trans w w2 _ H2); apply sends_only_tx_data).
  unfold bind at 1.
  pose proof (sends_only_TriggerWriteDma kMax w3) as H4.
  destruct (TriggerWriteDma kMax w3) as [[] w4 | w4 | w4];
    cbn [Outcome_world] in H4 |- *;
    try (apply (sends_only_trans w w3 _ H3); exact H4).
  assert (H4' : sends_only w w4) by (apply (sends_only_trans w w3 _ H3); exact H4).
  unfold bind at 1.
  pose proof (sends_only_acquire kMax fuel w4) as H5.
  destruct (notification_acquire kMax fuel w4) as [[] w5 | w5 | w5];
    cbn [Outcome_world] in H5 |- *;
    [|apply (sends_only_trans w w4 _ H4'); exact H5 ..].
  unfold bind, busy_store, modify_tx_data, ret. cbn [Outcome_world].
  apply (sends_only_trans w w5);
    [apply (sends_only_trans w w4 _ H4'); exact H5 | apply sends_only_tx_data].
Qed.

(** Whatever the state of the instance, the buffer and the outcome (returned,
    blocked or dead on the check), the only SDK calls [DoWrite] makes are
    USART_TransferSendDMA calls on the configured serial engine: it never
    takes the interrupt lock and never configures, enables or disables
    anything; configuration, initialized flag and memory are as before, and
    the lock discipline of the log is kept. *)
Theorem DoWrite_only_sends (kMax : Z) (fuel : nat) (b : ConstByteSpan)
    (w : World) :
  let w' := Outcome_world (DoWrite kMax fuel b w) in
  sends_only w w' /\
  new_calls w w'
  = map (USART_TransferSendDMA (usart_base (config_ (self w))))
      (sent_transfers (new_calls w w')) /\
  (lock_disciplined (calls w) -> lock_disciplined (calls w')).
Proof.
  cbv zeta.
  pose proof (sends_only_DoWrite kMax fuel b w) as H.
  split; [exact H|].
  destruct H as (_ & _ & _ & l & Hl).
  rewrite (new_calls_app w _ _ Hl), sent_transfers_sends.
  split; [reflexivity|].
  intro Hw. rewrite Hl.
  apply lock_disciplined_app; [exact Hw | apply lock_disciplined_sends].
Qed.

Lemma DoWrite_only_sends_witness :
  let w := constructed demo_config in
  let w' := Outcome_world (DoWrite demo_max_transfer 1 demo_buffer w) in
  lock_disciplined (calls w').
Proof.
  cbv zeta.
  apply (proj2 (proj2 (DoWrite_only_sends demo_max_transfer 1 demo_buffer
                         (constructed demo_config)))).
  reflexivity.
Defined.

(** ** The completion callback, case by case *)

(** The callback acts on [kStatus_USART_TxIdle] only; any other status (a
    receive completion, say) leaves everything as it was.  On TxIdle it adds
    the descriptor's size to the cursor (in [size_t]) and then: signals the
    notification without calling the SDK when the cursor equals the buffer
    length; hands exactly one more transfer, starting at the new cursor, to
    the SDK without signalling when the cursor is below the length; dies on
    the check, without signal or call, when the cursor is above it. *)
Theorem TxRxCompletionCallback_cases (kMax : Z) (w : World) :
  let tx := tx_data_ (self w) in
  let len := size_bytes (buffer tx) in
  let cur := size_t_add (tx_idx tx) (dataSize (transfer tx)) in
  (forall status,
     status <> kStatus_USART_TxIdle ->
     TxRxCompletionCallback kMax status w = Returned tt w) /\
  (cur = len ->
   exists w',
     TxRxCompletionCallback kMax kStatus_USART_TxIdle w = Returned tt w' /\
     tx_idx (tx_data_ (self w')) = len /\
     notification (tx_data_ (self w')) = true /\
     calls w' = calls w /\
     tx_in_flight w' = tx_in_flight w) /\
  (cur < len ->
   exists w' t,
     TxRxCompletionCallback kMax kStatus_USART_TxIdle w = Returned tt w' /\
     tx_idx (tx_data_ (self w')) = cur /\
     notification (tx_data_ (self w')) = notification tx /\
     new_calls w w' = [USART_TransferSendDMA (usart_base (config_ (self w))) t] /\
     txData t = span_data (buffer tx) + cur /\
     transfer (tx_data_ (self w')) = t) /\
  (len < cur ->
   exists w',
     TxRxCompletionCallback kMax kStatus_USART_TxIdle w = Aborted w' /\
     tx_idx (tx_data_ (self w')) = cur /\
     notification (tx_data_ (self w')) = notification tx /\
     calls w' = calls w).
Proof.
  cbv zeta.
  set (cur := size_t_add (tx_idx (tx_data_ (self w)))
                (dataSize (transfer (tx_data_ (self w))))).
  set (len := size_bytes (buffer (tx_data_ (self w)))).
  assert (Heq : TxRxCompletionCallback kMax kStatus_USART_TxIdle w
                = let w1 := with_self (with_tx_data (set_tx_idx cur)) w in
                  if cur =? len then
                    Returned tt (with_self (with_tx_data (set_notification true)) w1)
                  else if cur <? len then TriggerWriteDma kMax w1
                  else Aborted w1).
  { rewrite TxRxCompletionCallback_TxIdle_eq. reflexivity. }
  split; [|split; [|split]].
  - intros status Hs. unfold TxRxCompletionCallback.
    apply status_t_eqb_neq in Hs. rewrite Hs. reflexivity.
  - intro Hc. rewrite Heq. cbv zeta. rewrite Hc, Z.eqb_refl.
    eexists. split; [reflexivity|]. cbn. repeat split.
  - intro Hc. rewrite Heq. cbv zeta.
    destruct (Z.eqb_spec cur len) as [E|_]; [lia|].
    destruct (Z.ltb_spec cur len) as [_|L]; [|lia].
    rewrite TriggerWriteDma_eq. cbv zeta. do 2 eexists.
    split; [reflexivity|]. cbn. repeat split.
    apply new_calls_app. reflexivity. reflexivity.
  - intro Hc. rewrite Heq. cbv zeta.
    destruct (Z.eqb_spec cur len) as [E|_]; [lia|].
    destruct (Z.ltb_spec cur len) as [L|_]; [lia|].
    eexists. split; [reflexivity|]. cbn. repeat split.
Qed.

(** A receive completion in the middle of a write changes nothing; a
    descriptor that overshoots the buffer kills the callback. *)
Lemma TxRxCompletionCallback_cases_witness :
  TxRxCompletionCallback demo_max_transfer kStatus_USART_RxIdle mid_write
  = Returned tt mid_write /\
  exists w',
    TxRxCompletionCallback demo_max_transfer kStatus_USART_TxIdle
      (with_self (with_tx_data (set_tx_idx 2000)) mid_write)
    = Aborted w' /\
    tx_idx (tx_data_ (self w')) = 3024.
Proof.
  split.
  - apply (proj1 (TxRxCompletionCallback_cases demo_max_transfer mid_write)).
    discriminate.
  - destruct (proj2 (proj2 (proj2
               (TxRxCompletionCallback_cases demo_max_transfer
                  (with_self (with_tx_data (set_tx_idx 2000)) mid_write))))
               ltac:(vm_compute; reflexivity))
      as (w' & Hcb & Hidx & _).
    exists w'. split; [exact Hcb | exact Hidx].
Defined.

(** ** Bytes handed to the hardware *)

Lemma total_bytes_app (l1 l2 : list usart_transfer_t) :
  total_bytes (l1 ++ l2) = total_bytes l1 + total_bytes l2.
Proof. induction l1 as [|t l1 IH]; cbn [app total_bytes]; lia. Qed.

Section ByteAccounting.
Variable kMax : Z.
Variable b : ConstByteSpan.
Hypothesis Hb : chunkable kMax b.

(** Every chunk of the specification lies inside the buffer and moves between
    one and max-chunk bytes. *)
Lemma chunk_at_in_bounds (i : nat) :
  (i < chunk_count kMax (size_bytes b))%nat ->
  transfer_in_bounds kMax b (chunk_at kMax b i).
Proof.
  intro Hi. pose proof (chunk_start_in_range kMax b Hb i Hi) as Hr.
  destruct Hb as (Hk & Hl & Hw).
  unfold transfer_in_bounds, chunk_at. cbn [txData dataSize]. lia.
Qed.

Lemma chunks_in_bounds (m : nat) :
  (m <= chunk_count kMax (size_bytes b))%nat ->
  Forall (transfer_in_bounds kMax b) (map (chunk_at kMax b) (seq 0 m)).
Proof.
  intro Hm. apply Forall_forall. intros t Ht.
  apply in_map_iff in Ht. destruct Ht as (i & <- & Hi).
  apply in_seq in Hi. apply chunk_at_in_bounds. lia.
Qed.

(** The chunks before chunk [k] are full ones. *)
Lemma total_bytes_full_chunks (k : nat) :
  (k < chunk_count kMax (size_bytes b))%nat ->
  total_bytes (map (chunk_at kMax b) (seq 0 k)) = Z.of_nat k * kMax.
Proof.
  induction k as [|k IH]; intro Hk; [reflexivity|].
  rewrite seq_S, map_app, total_bytes_app, IH by lia.
  pose proof (chunk_next_in_range kMax b Hb k Hk) as Hn.
  cbn [map total_bytes chunk_at dataSize Nat.add]. lia.
Qed.

(** All chunks together are the buffer. *)
Lemma total_bytes_spec_transfers :
  total_bytes (spec_transfers kMax b) = size_bytes b.
Proof.
  pose proof (chunk_count_pos kMax b Hb) as HN.
  unfold spec_transfers.
  destruct (chunk_count kMax (size_bytes b)) as [|n] eqn:E; [lia|].
  rewrite seq_S, map_app, total_bytes_app.
  rewrite total_bytes_full_chunks by (rewrite E; lia).
  pose proof (chunk_last_ends kMax b Hb n (eq_sym E)) as Hl.
  pose proof (chunk_start_in_range kMax b Hb n ltac:(rewrite E; lia)) as Hr.
  cbn [map total_bytes chunk_at dataSize Nat.add]. lia.
Qed.

End ByteAccounting.

(** During a write of a buffer in the range of [chunkable], started on an idle
    instance, the cursor counts exactly the bytes of the transfers that have
    completed: while the caller is blocked after [k] callbacks the cursor is
    [k] full chunks, and the bytes of all transfers issued so far are the
    cursor plus the chunk in flight, never more than the buffer holds.  When
    the write returns, the transfers it issued add up to exactly the buffer
    length. *)
Theorem DoWrite_byte_accounting (kMax : Z) (w : World) (b : ConstByteSpan) :
  chunkable kMax b ->
  idle w ->
  (forall k wk,
     DoWrite kMax k b w = Blocked wk ->
     let tx := tx_data_ (self wk) in
     let issued := sent_transfers (new_calls w wk) in
     tx_idx tx = Z.of_nat k * kMax /\
     length issued = S k /\
     total_bytes issued = tx_idx tx + dataSize (transfer tx) /\
     total_bytes issued <= size_bytes b) /\
  (forall fuel w',
     DoWrite kMax fuel b w = Returned OkStatus w' ->
     total_bytes (sent_transfers (new_calls w w')) = size_bytes b).
Proof.
  intros Hb Hidle. split.
  - intros k wk Hrun.
    rewrite (DoWrite_run kMax w b Hb Hidle) in Hrun.
    destruct (Nat.ltb_spec k (chunk_count kMax (size_bytes b))) as [Hk|Hk];
      [|discriminate].
    assert (Hwk : wk = writing kMax w b k (map (chunk_at kMax b) (seq 0 (S k))))
      by congruence.
    clear Hrun. subst wk. cbv zeta.
    rewrite (new_calls_app w _
               (map (USART_TransferSendDMA (usart_base (config_ (self w))))
                  (map (chunk_at kMax b) (seq 0 (S k))))) by reflexivity.
    rewrite sent_transfers_sends.
    cbn [writing self tx_data_ tx_idx transfer].
    split; [reflexivity|]. split; [rewrite length_map, length_seq; reflexivity|].
    rewrite seq_S, map_app, total_bytes_app.
    rewrite (total_bytes_full_chunks kMax b Hb k Hk).
    pose proof (chunk_start_in_range kMax b Hb k Hk) as Hr.
    cbn [map total_bytes chunk_at dataSize Nat.add]. lia.
  - intros fuel w' Hrun.
    rewrite (DoWrite_run kMax w b Hb Hidle) in Hrun.
    destruct (fuel <? chunk_count kMax (size_bytes b))%nat; [discriminate|].
    assert (Hw' : w' = written kMax w b (chunk_count kMax (size_bytes b) - 1)
                         (spec_transfers kMax b) false false) by congruence.
    clear Hrun. subst w'.
    rewrite (new_calls_app w _
               (map (USART_TransferSendDMA (usart_base (config_ (self w))))
                  (spec_transfers kMax b))) by reflexivity.
    rewrite sent_transfers_sends.
    apply (total_bytes_spec_transfers kMax b Hb).
Qed.

Lemma DoWrite_byte_accounting_witness :
  chunkable demo_max_transfer demo_buffer /\
  idle (constructed demo_config) /\
  (forall fuel w',
     DoWrite demo_max_transfer fuel demo_buffer (constructed demo_config)
     = Returned OkStatus w' ->
     total_bytes (sent_transfers (new_calls (constructed demo_config) w'))
     = size_bytes demo_buffer).
Proof.
  assert (Hb : chunkable demo_max_transfer demo_buffer)
    by (unfold chunkable; vm_compute; repeat split; discriminate).
  assert (Hi : idle (constructed demo_config))
    by (unfold idle; repeat split; reflexivity).
  split; [exact Hb|]. split; [exact Hi|].
  exact (proj2 (DoWrite_byte_accounting demo_max_transfer
                  (constructed demo_config) demo_buffer Hb Hi)).
Defined.

(** At every moment of such a write, whatever its outcome so far, each
    transfer handed to the SDK moves at least one byte and at most max-chunk
    bytes, and reads only bytes of the caller's buffer. *)
Theorem DoWrite_transfers_in_bounds (kMax : Z) (fuel : nat) (w : World)
    (b : ConstByteSpan) :
  chunkable kMax b ->
  idle w ->
  Forall (transfer_in_bounds kMax b)
    (sent_transfers (new_calls w (Outcome_world (DoWrite kMax fuel b w)))).
Proof.
  intros Hb Hidle. rewrite (DoWrite_run kMax w b Hb Hidle).
  destruct (Nat.ltb_spec fuel (chunk_count kMax (size_bytes b))) as [Hk|Hk];
    cbn [Outcome_world].
  - rewrite (new_calls_app w _
               (map (USART_TransferSendDMA (usart_base (config_ (self w))))
                  (map (chunk_at kMax b) (seq 0 (S fuel))))) by reflexivity.
    rewrite sent_transfers_sends. apply (chunks_in_bounds kMax b Hb). lia.
  - rewrite (new_calls_app w _
               (map (USART_TransferSendDMA (usart_base (config_ (self w))))
                  (spec_transfers kMax b))) by reflexivity.
    rewrite sent_transfers_sends. apply (chunks_in_bounds kMax b Hb). lia.
Qed.

Lemma DoWrite_transfers_in_bounds_witness :
  Forall (transfer_in_bounds demo_max_transfer demo_buffer)
    (sent_transfers
       (new_calls (constructed demo_config)
          (Outcome_world (DoWrite demo_max_transfer 2 demo_buffer
                            (constructed demo_config))))).
Proof.
  apply (DoWrite_transfers_in_bounds demo_max_transfer 2
           (constructed demo_config) demo_buffer).
  - unfold chunkable. vm_compute. repeat split; discriminate.
  - unfold idle. repeat split; reflexivity.
Defined.

(** ** A second caller during a write *)

(** At every moment at which a write (of a buffer in the range of
    [chunkable], started on an idle instance) is blocked on the notification,
    the busy flag is set; a second [DoWrite] arriving then is answered at once
    (FailedPrecondition for a non-empty buffer, InvalidArgument for an empty
    one) and a [DoRead] returns its length, each leaving the world of the
    blocked write exactly as it was, so the first write goes on unaffected. *)
Theorem DoWrite_blocked_excludes_others (kMax : Z) (k : nat) (w wk : World)
    (b : ConstByteSpan) :
  chunkable kMax b ->
  idle w ->
  DoWrite kMax k b w = Blocked wk ->
  busy (tx_data_ (self wk)) = true /\
  (forall fuel b2,
     DoWrite kMax fuel b2 wk
     = Returned (if size_bytes b2 =? 0 then InvalidArgument
                 else FailedPrecondition) wk) /\
  (forall data,
     DoRead data wk = Returned (StatusWithSize_of_size (size_bytes data)) wk).
Proof.
  intros Hb Hidle Hrun.
  rewrite (DoWrite_run kMax w b Hb Hidle) in Hrun.
  destruct (k <? chunk_count kMax (size_bytes b))%nat; [|discriminate].
  injection Hrun as <-.
  split; [reflexivity|]. split; [|reflexivity].
  intros fuel b2. unfold DoWrite.
  destruct (size_bytes b2 =? 0); reflexivity.
Qed.

Lemma DoWrite_blocked_excludes_others_witness :
  busy (tx_data_ (self mid_write)) = true /\
  (forall fuel b2,
     DoWrite demo_max_transfer fuel b2 mid_write
     = Returned (if size_bytes b2 =? 0 then InvalidArgument
                 else FailedPrecondition) mid_write) /\
  (forall data,
     DoRead data mid_write
     = Returned (StatusWithSize_of_size (size_bytes data)) mid_write).
Proof.
  apply (DoWrite_blocked_excludes_others demo_max_transfer 1
           (constructed demo_config) mid_write demo_buffer).
  - unfold chunkable. vm_compute. repeat split; discriminate.
  - unfold idle. repeat split; reflexivity.
  - vm_compute. reflexivity.
Defined.

(** ** Writes in sequence *)

(** Two writes, the second started when the first has returned: the SDK
    receives the chunks of the first buffer, in order, and then those of the
    second. *)
Theorem DoWrite_then_DoWrite (kMax : Z) (f1 f2 : nat) (b1 b2 : ConstByteSpan)
    (w w1 w2 : World) :
  chunkable kMax b1 ->
  chunkable kMax b2 ->
  idle w ->
  DoWrite kMax f1 b1 w = Returned OkStatus w1 ->
  DoWrite kMax f2 b2 w1 = Returned OkStatus w2 ->
  sent_transfers (new_calls w w2)
  = spec_transfers kMax b1 ++ spec_transfers kMax b2 /\
  total_bytes (sent_transfers (new_calls w w2)) = size_bytes b1 + size_bytes b2 /\
  idle w2.
Proof.
  intros Hb1 Hb2 Hidle H1 H2.
  pose proof (DoWrite_ok_idle kMax f1 b1 w w1 Hb1 Hidle H1) as Hidle1.
  pose proof (DoWrite_ok_idle kMax f2 b2 w1 w2 Hb2 Hidle1 H2) as Hidle2.
  rewrite (DoWrite_run kMax w b1 Hb1 Hidle) in H1.
  destruct (f1 <? chunk_count kMax (size_bytes b1))%nat; [discriminate|].
  assert (Hw1 : w1 = written kMax w b1 (chunk_count kMax (size_bytes b1) - 1)
                       (spec_transfers kMax b1) false false) by congruence.
  clear H1.
  rewrite (DoWrite_run kMax w1 b2 Hb2 Hidle1) in H2.
  destruct (f2 <? chunk_count kMax (size_bytes b2))%nat; [discriminate|].
  assert (Hw2 : w2 = written kMax w1 b2 (chunk_count kMax (size_bytes b2) - 1)
                       (spec_transfers kMax b2) false false) by congruence.
  clear H2.
  assert (Hcalls : calls w2
                   = calls w ++
                     map (USART_TransferSendDMA (usart_base (config_ (self w))))
                       (spec_transfers kMax b1 ++ spec_transfers kMax b2)).
  { rewrite Hw2, Hw1. cbn [written calls self config_].
    rewrite map_app, app_assoc. reflexivity. }
  rewrite (new_calls_app w w2 _ Hcalls), sent_transfers_sends.
  split; [reflexivity|]. split; [|exact Hidle2].
  rewrite total_bytes_app.
  rewrite (total_bytes_spec_transfers kMax b1 Hb1).
  rewrite (total_bytes_spec_transfers kMax b2 Hb2). reflexivity.
Qed.

Lemma DoWrite_then_DoWrite_witness :
  let w := constructed demo_config in
  let w1 := written demo_max_transfer w demo_buffer 2
              (spec_transfers demo_max_transfer demo_buffer) false false in
  let w2 := written demo_max_transfer w1 one_byte_buffer 0
              (spec_transfers demo_max_transfer one_byte_buffer) false false in
  sent_transfers (new_calls w w2)
  = spec_transfers demo_max_transfer demo_buffer
    ++ spec_transfers demo_max_transfer one_byte_buffer /\
  total_bytes (sent_transfers (new_calls w w2))
  = size_bytes demo_buffer + size_bytes one_byte_buffer /\
  idle w2.
Proof.
  cbv zeta.
  apply (DoWrite_then_DoWrite demo_max_transfer 3 1 demo_buffer one_byte_buffer
           (constructed demo_config)
           (written demo_max_transfer (constructed demo_config) demo_buffer 2
              (spec_transfers demo_max_transfer demo_buffer) false false)).
  - unfold chunkable. vm_compute. repeat split; discriminate.
  - unfold chunkable. vm_compute. repeat split; discriminate.
  - unfold idle. repeat split; reflexivity.
  - vm_compute. reflexivity.
  - vm_compute. reflexivity.
Defined.

(** ** What every sequential client finds *)

Lemma DoWrite_returned_frame (kMax : Z) (fuel : nat) (b : ConstByteSpan)
    (w w' : World) (st : Status) :
  DoWrite kMax fuel b w = Returned st w' ->
  config_ (self w') = config_ (self w) /\
  (lock_disciplined (calls w) -> lock_disciplined (calls w')).
Proof.
  intro Hrun. pose proof (sends_only_DoWrite kMax fuel b w) as H.
  rewrite Hrun in H. cbn [Outcome_world] in H.
  destruct H as (Hc & _ & _ & l & Hl). split; [exact Hc|].
  intro Hw. rewrite Hl.
  apply lock_disciplined_app; [exact Hw | apply lock_disciplined_sends].
Qed.

Lemma api_step_invariant (kMax : Z) (sdk_ret : Vendor) (c : api_call)
    (w w' : World) :
  0 < kMax ->
  api_call_in_range kMax c ->
  api_step kMax sdk_ret c w = Some w' ->
  idle w /\ lock_disciplined (calls w) ->
  (idle w' /\ lock_disciplined (calls w')) /\
  config_ (self w') = config_ (self w).
Proof.
  intros Hk Hc Hstep (Hidle & Hlock).
  destruct c as [srcclk | data | data fuel]; cbn [api_step] in Hstep.
  - destruct (Init sdk_ret srcclk w) as [st w1 | w1 | w1] eqn:Hrun;
      cbn [returned_world] in Hstep; [|discriminate|discriminate].
    injection Hstep as <-.
    split; [split|].
    + apply (idle_Init sdk_ret srcclk w w1 st Hidle Hrun).
    + pose proof (lock_disciplined_Init sdk_ret srcclk w Hlock) as H.
      rewrite Hrun in H. exact H.
    + apply (Init_initialized sdk_ret srcclk w w1 st Hrun).
  - cbn in Hstep. injection Hstep as <-.
    split; [split; assumption | reflexivity].
  - destruct (DoWrite kMax fuel data w) as [st w1 | w1 | w1] eqn:Hrun;
      cbn [returned_world] in Hstep; [|discriminate|discriminate].
    injection Hstep as <-. cbn [api_call_in_range] in Hc.
    destruct (DoWrite_returned_frame kMax fuel data w w1 st Hrun) as (Hcfg & Hl).
    split; [split|].
    + apply (idle_DoWrite kMax fuel data w w1 st Hk); tauto.
    + apply Hl. exact Hlock.
    + exact Hcfg.
Qed.

Lemma run_api_invariant (kMax : Z) (sdk_ret : Vendor) (l : list api_call) :
  0 < kMax ->
  forall w w' : World,
    Forall (api_call_in_range kMax) l ->
    run_api kMax sdk_ret l w = Some w' ->
    idle w /\ lock_disciplined (calls w) ->
    (idle w' /\ lock_disciplined (calls w')) /\
    config_ (self w') = config_ (self w).
Proof.
  intro Hk. induction l as [|c l IH]; intros w w' Hl Hrun Hinv.
  - cbn in Hrun. injection Hrun as <-. split; [exact Hinv | reflexivity].
  - cbn [run_api] in Hrun.
    destruct (api_step kMax sdk_ret c w) as [w1|] eqn:Hstep; [|discriminate].
    inversion Hl as [|c' l' Hc Hl']; subst.
    destruct (api_step_invariant kMax sdk_ret c w w1 Hk Hc Hstep Hinv)
      as (Hinv1 & Hcfg1).
    destruct (IH w1 w' Hl' Hrun Hinv1) as (Hinv' & Hcfg').
    split; [exact Hinv' | congruence].
Qed.

(** Whatever calls of [Init], [DoRead] and [DoWrite] (of buffers in range) a
    client makes on a freshly constructed instance, in any order and number,
    each started after the previous one returned: when the last one has
    returned the instance is idle again (busy flag and notification clear, no
    transfer in flight), so the next write finds the state the chunking
    theorems ask for; the interrupt lock is free and was only ever used as
    the discipline asks; and the configuration is the one given at
    construction. *)
Theorem sequential_client_finds_idle (kMax : Z) (sdk_ret : Vendor)
    (cfg : Config) (l : list api_call) (w' : World) :
  0 < kMax ->
  Forall (api_call_in_range kMax) l ->
  run_api kMax sdk_ret l (constructed cfg) = Some w' ->
  idle w' /\
  lock_disciplined (calls w') /\
  config_ (self w') = cfg.
Proof.
  intros Hk Hl Hrun.
  destruct (run_api_invariant kMax sdk_ret l Hk (constructed cfg) w' Hl Hrun)
    as ((Hi & Hlk) & Hc).
  { split; [apply idle_constructed | reflexivity]. }
  split; [exact Hi|]. split; [exact Hlk | exact Hc].
Qed.

Lemma sequential_client_finds_idle_witness :
  exists w',
    run_api demo_max_transfer sdk_ok demo_session (constructed demo_config)
    = Some w' /\
    idle w' /\
    lock_disciplined (calls w') /\
    config_ (self w') = demo_config.
Proof.
  eexists. split; [vm_compute; reflexivity|].
  apply (sequential_client_finds_idle demo_max_transfer sdk_ok demo_config
           demo_session).
  - reflexivity.
  - unfold demo_session.
    repeat (apply Forall_cons; [cbn; try (split; vm_compute; discriminate); exact I|]).
    apply Forall_nil.
  - vm_compute. reflexivity.
Defined.
